(** * Availability engine of the booking application: slot filtering and
    aggregation ([getSchedule], [checkIfIsAvailable]).

    Times are instants, counted in milliseconds since the epoch ([Z]).  A
    request's time zone does not change an instant; the model takes day
    arithmetic in UTC, which is the [Etc/GMT] branch of [getSchedule]. *)

From Stdlib Require Import ZArith List Bool Lia String.
From stdpp Require Import gmap strings list fin_maps.
Import ListNotations.

Local Open Scope Z_scope.

(** ** The date library: comparisons, [isBetween], [add] *)

Module Dayjs.

Definition MILLISECONDS_A_MINUTE : Z := 60000.
Definition MILLISECONDS_A_DAY : Z := 86400000.

Definition isBefore (a b : Z) : bool := a <? b.
Definition isAfter (a b : Z) : bool := b <? a.

(** The fourth argument of [isBetween]: ["()"], ["[)"], ["(]"], ["[]"];
    the default is ["()"]. *)
Inductive Inclusivity : Type := Excl_Excl | Incl_Excl | Excl_Incl | Incl_Incl.

Definition opensExclusive (i : Inclusivity) : bool :=
  match i with Excl_Excl | Excl_Incl => true | _ => false end.
Definition closesExclusive (i : Inclusivity) : bool :=
  match i with Excl_Excl | Incl_Excl => true | _ => false end.

(** The plugin accepts the two bounds in either order: the second
    disjunct is the first one with the bounds exchanged. *)
Definition isBetween (x a b : Z) (i : Inclusivity) : bool :=
  let dAi := opensExclusive i in
  let dBi := closesExclusive i in
  ((if dAi then isAfter x a else negb (isBefore x a)) &&
   (if dBi then isBefore x b else negb (isAfter x b)))
  ||
  ((if dAi then isBefore x a else negb (isAfter x a)) &&
   (if dBi then isAfter x b else negb (isBefore x b))).

Definition add_minutes (t n : Z) : Z := t + n * MILLISECONDS_A_MINUTE.
Definition add_days (t n : Z) : Z := t + n * MILLISECONDS_A_DAY.

(** [startOf("day")] in UTC. *)
Definition startOfDay (t : Z) : Z := t / MILLISECONDS_A_DAY * MILLISECONDS_A_DAY.

End Dayjs.

(** ** Busy intervals and seats *)

Module EventBusyDate.
Record t : Type := mk { start : Z; end_ : Z }.
End EventBusyDate.

(** One entry of [CurrentSeats]: a booking of a seated event that still
    has room ([attendees] is [_count.attendees]). *)
Module Seat.
Record t : Type := mk { uid : string; startTime : Z; attendees : Z }.
End Seat.

Abbreviation CurrentSeats := (list Seat.t).

(** [currentSeats?.some(booking => booking.startTime.toISOString() ===
    time.toISOString())]: two valid instants print the same ISO string
    exactly when they are equal. *)
Definition seatAt (time : Z) (booking : Seat.t) : bool :=
  Seat.startTime booking =? time.

Definition someSeatAt (currentSeats : option CurrentSeats) (time : Z) : bool :=
  match currentSeats with
  | None => false
  | Some seats => existsb (seatAt time) seats
  end.

(** The callback of [busy.every] in [checkIfIsAvailable]. *)
Definition busyTimeAllows (time eventLength : Z) (busyTime : EventBusyDate.t) : bool :=
  let slotEndTime := Dayjs.add_minutes time eventLength in
  let slotStartTime := time in
  let startTime := EventBusyDate.start busyTime in
  let endTime := EventBusyDate.end_ busyTime in
  if Dayjs.isBefore endTime slotStartTime || Dayjs.isAfter startTime slotEndTime then true
  else if Dayjs.isBetween slotStartTime startTime endTime Dayjs.Incl_Excl then false
  else if Dayjs.isBetween slotEndTime startTime endTime Dayjs.Excl_Incl then false
  else if Dayjs.isBetween time startTime endTime Dayjs.Incl_Excl then false
  else if Dayjs.isBetween slotEndTime startTime endTime Dayjs.Excl_Excl then false
  else if Dayjs.isBetween startTime time slotEndTime Dayjs.Excl_Excl then false
  else true.

Definition checkIfIsAvailable (time : Z) (busy : list EventBusyDate.t)
    (eventLength : Z) (currentSeats : option CurrentSeats) : bool :=
  if someSeatAt currentSeats time then true
  else forallb (busyTimeAllows time eventLength) busy.

(** The overlap of the slot window with a busy interval, as the
    specification words it: [slot.start < b.end] and [slot.end > b.start]. *)
Definition overlaps (time eventLength : Z) (b : EventBusyDate.t) : Prop :=
  time < EventBusyDate.end_ b /\
  Dayjs.add_minutes time eventLength > EventBusyDate.start b.

Definition wellFormedBusy (b : EventBusyDate.t) : Prop :=
  EventBusyDate.start b <= EventBusyDate.end_ b.

(** ** The data of a request *)

Inductive SchedulingType : Type := ROUND_ROBIN | COLLECTIVE.
Inductive PeriodType : Type := UNLIMITED | ROLLING | RANGE.

Module User.
(** [allowDynamicBooking] is selected for dynamic bookings only; [None]
    stands for [null] and for a column that was not selected. *)
Record t : Type := mk {
  id : Z;
  username : option string;
  allowDynamicBooking : option bool }.
End User.

(** An entry of [eventType.hosts], and also an element of the [users]
    array that [getSchedule] builds: a user with its [isFixed] flag. *)
Module Host.
Record t : Type := mk { isFixed : bool; user : User.t }.
End Host.

Module EventType.
(** [metadata] is the JSON column, as text.  [hosts] is [None] where the
    event object carries no [hosts] property. *)
Record t : Type := mk {
  id : Z;
  minimumBookingNotice : Z;
  length : Z;
  seatsPerTimeSlot : option Z;
  slotInterval : option Z;
  beforeEventBuffer : Z;
  afterEventBuffer : Z;
  schedulingType : option SchedulingType;
  periodType : PeriodType;
  periodStartDate : option Z;
  periodEndDate : option Z;
  periodCountCalendarDays : option bool;
  periodDays : option Z;
  metadata : string;
  hosts : option (list Host.t);
  users : list User.t }.

Definition with_metadata (e : t) (m : string) : t :=
  mk (id e) (minimumBookingNotice e) (length e) (seatsPerTimeSlot e)
     (slotInterval e) (beforeEventBuffer e) (afterEventBuffer e)
     (schedulingType e) (periodType e) (periodStartDate e) (periodEndDate e)
     (periodCountCalendarDays e) (periodDays e) m (hosts e) (users e).

Definition with_users (e : t) (us : list User.t) : t :=
  mk (id e) (minimumBookingNotice e) (length e) (seatsPerTimeSlot e)
     (slotInterval e) (beforeEventBuffer e) (afterEventBuffer e)
     (schedulingType e) (periodType e) (periodStartDate e) (periodEndDate e)
     (periodCountCalendarDays e) (periodDays e) (metadata e) (hosts e) us.
End EventType.

Module Input.
(** The request after schema validation.  [startTime] and [endTime] are
    the ISO strings as the date library reads them: [None] is an invalid
    date.  [duration] is the parsed number; [None] stands for an absent
    or empty string and for [NaN]. *)
Record t : Type := mk {
  startTime : option Z;
  endTime : option Z;
  eventTypeId : option Z;
  eventTypeSlug : string;
  timeZone : option string;
  usernameList : option (list string);
  debug : option bool;
  duration : option Z }.
End Input.

Module Prisma.
Record t : Type := mk {
  eventType_findUnique : option Z -> option EventType.t;
  user_findMany : option (list string) -> list User.t }.
End Prisma.

(** ** Errors *)

Inductive TRPCCode : Type := NOT_FOUND | BAD_REQUEST | UNAUTHORIZED.

(** What a call throws: a [TRPCError], the error of a schema that does
    not parse, or the [RangeError] of the date library. *)
Inductive Failure : Type :=
| TRPCError (code : TRPCCode) (message : string)
| ZodError
| RangeError.

Inductive Result (A : Type) : Type :=
| Ok (a : A)
| Err (f : Failure).
Arguments Ok {A} a.
Arguments Err {A} f.

(** The call throws a [TRPCError] with this code. *)
Definition failsWith {A : Type} (code : TRPCCode) (r : Result A) : Prop :=
  exists message, r = Err (TRPCError code message).

(** JavaScript truthiness of a number that may be absent: [null],
    [undefined], [NaN] and [0] are falsy. *)
Definition truthy (n : option Z) : bool :=
  match n with
  | Some v => negb (v =? 0)
  | None => false
  end.

(** [a || b] where [b] is a number. *)
Definition orElse (a : option Z) (b : Z) : Z :=
  match a with
  | Some v => if v =? 0 then b else v
  | None => b
  end.

(** ** What the collaborators exchange with [getSchedule] *)

(** Modelled from the spec: the type [WorkingHours] of the availability
    collaborator (data model: days, start and end as offsets in minutes
    from the start of the day, and the host). *)
Module WorkingHours.
Record t : Type := mk {
  days : list Z;
  startTime : Z;
  endTime : Z;
  userId : option Z }.
End WorkingHours.

(** Modelled from the spec: the type [DateOverride] of the availability
    collaborator (data model: the host, the date as the instant its day
    starts, and the intervals that replace the working hours). *)
Module DateOverride.
Record t : Type := mk {
  userId : option Z;
  date : Z;
  intervals : list EventBusyDate.t }.

Definition with_userId (o : t) (u : Z) : t := mk (Some u) (date o) (intervals o).
End DateOverride.

Module AvailabilityQuery.
Record t : Type := mk {
  userId : Z;
  username : string;
  dateFrom : Z;
  dateTo : Z;
  eventTypeId : option Z;
  afterEventBuffer : Z;
  beforeEventBuffer : Z }.
End AvailabilityQuery.

Module InitialData.
Record t : Type := mk {
  user : Host.t;
  eventType : EventType.t;
  currentSeats : option CurrentSeats }.
End InitialData.

(** What [getUserAvailability] resolves to. *)
Module AvailabilityResult.
Record t : Type := mk {
  busy : list EventBusyDate.t;
  workingHours : list WorkingHours.t;
  dateOverrides : list DateOverride.t;
  currentSeats : option CurrentSeats;
  timeZone : string }.
End AvailabilityResult.

(** An element of [userAvailability]. *)
Module UserAvailability.
Record t : Type := mk {
  timeZone : string;
  workingHours : list WorkingHours.t;
  dateOverrides : list DateOverride.t;
  busy : list EventBusyDate.t;
  user : Host.t }.
End UserAvailability.

(** A candidate slot, as [getTimeSlots] returns it; [userIds] is optional. *)
Module Slot.
Record t : Type := mk { time : Z; userIds : option (list Z) }.
End Slot.

Module TimeSlotsArgs.
Record t : Type := mk {
  inviteeDate : Z;
  eventLength : Z;
  workingHours : list WorkingHours.t;
  dateOverrides : list DateOverride.t;
  minimumBookingNotice : Z;
  frequency : Z }.
End TimeSlotsArgs.

Module PeriodConfig.
Record t : Type := mk {
  periodType : PeriodType;
  periodStartDate : option Z;
  periodEndDate : option Z;
  periodCountCalendarDays : option bool;
  periodDays : option Z }.
End PeriodConfig.

(** An element of the lists of the result: the slot's other properties
    ([userIds]), its time, the user names and the seat annotations. *)
Module SlotDescriptor.
Record t : Type := mk {
  userIds : option (list Z);
  time : Z;
  users : list string;
  attendees : option Z;
  bookingUid : option string }.
End SlotDescriptor.

Module AvailabilityCheckProps.
Record t : Type := mk { eventLength : Z; currentSeats : option CurrentSeats }.
End AvailabilityCheckProps.

(** ** The day loop of [getSchedule] *)

(** [for (c = startTime; c.isBefore(endTime); c = c.add(1, "day"))], the
    dates it visits, with the number of rounds as fuel. *)
Fixpoint checkedTimes (rounds : nat) (currentCheckedTime endTime : Z) : list Z :=
  match rounds with
  | O => []
  | S rounds' =>
      if Dayjs.isBefore currentCheckedTime endTime
      then currentCheckedTime ::
           checkedTimes rounds' (Dayjs.add_days currentCheckedTime 1) endTime
      else []
  end.

(** Fuel that the loop never exhausts ([loop_exits] below). *)
Definition loopRounds (startTime endTime : Z) : nat :=
  Z.to_nat ((endTime - startTime) / Dayjs.MILLISECONDS_A_DAY + 1).

Definition loopDates (startTime endTime : Z) : list Z :=
  checkedTimes (loopRounds startTime endTime) startTime endTime.

(** ** Hosts: fixed and loose *)

(** Lines 239-246: the [users] array with its [isFixed] flags. *)
Definition scheduleUsers (eventType : EventType.t) : list Host.t :=
  let users :=
    map (fun user =>
           Host.mk
             (match EventType.schedulingType eventType with
              | None => true
              | Some COLLECTIVE => true
              | Some _ => false
              end)
             user)
        (EventType.users eventType) in
  match EventType.schedulingType eventType, EventType.hosts eventType with
  | Some _, Some (h :: hs) =>
      map (fun host => Host.mk (Host.isFixed host) (Host.user host)) (h :: hs)
  | _, _ => users
  end.

(** The continuation of each lookup runs when the lookup resolves:
    [if (!currentSeats && _currentSeats) currentSeats = _currentSeats].
    [completion] lists the positions of the hosts in the order in which
    their lookups resolve. *)
Definition seatsAnswered (results : list AvailabilityResult.t) (i : nat)
    : option CurrentSeats :=
  match nth_error results i with
  | Some r => AvailabilityResult.currentSeats r
  | None => None
  end.

Definition keepCurrentSeats (results : list AvailabilityResult.t)
    (currentSeats : option CurrentSeats) (i : nat) : option CurrentSeats :=
  match currentSeats with
  | Some _ => currentSeats
  | None => seatsAnswered results i
  end.

Definition settleCurrentSeats (results : list AvailabilityResult.t)
    (completion : list nat) : option CurrentSeats :=
  fold_left (keepCurrentSeats results) completion None.

(** ** The two availability stages *)

Definition hostAvailable (props : AvailabilityCheckProps.t) (time : Z)
    (schedule : UserAvailability.t) : bool :=
  checkIfIsAvailable time (UserAvailability.busy schedule)
    (AvailabilityCheckProps.eventLength props)
    (AvailabilityCheckProps.currentSeats props).

Definition isFixedHost (availability : UserAvailability.t) : bool :=
  Host.isFixed (UserAvailability.user availability).

Definition hostId (availability : UserAvailability.t) : Z :=
  User.id (Host.user (UserAvailability.user availability)).

(** Lines 323-338. *)
Definition filterFixedHosts (userAvailability : list UserAvailability.t)
    (props : AvailabilityCheckProps.t) (timeSlots : list Slot.t) : list Slot.t :=
  List.filter
    (fun slot =>
       let fixedHosts := List.filter isFixedHost userAvailability in
       forallb (hostAvailable props (Slot.time slot)) fixedHosts)
    timeSlots.

(** The callback of [slot.userIds?.filter], lines 344-356. *)
Definition looseHostFree (looseHostAvailability : list UserAvailability.t)
    (props : AvailabilityCheckProps.t) (time slotUserId : Z) : bool :=
  match List.find (fun a => hostId a =? slotUserId) looseHostAvailability with
  | None => false
  | Some userSchedule => hostAvailable props time userSchedule
  end.

Definition narrowSlot (looseHostAvailability : list UserAvailability.t)
    (props : AvailabilityCheckProps.t) (slot : Slot.t) : Slot.t :=
  Slot.mk (Slot.time slot)
    (option_map
       (List.filter (looseHostFree looseHostAvailability props (Slot.time slot)))
       (Slot.userIds slot)).

(** [!!slot.userIds?.length] *)
Definition hasUserIds (slot : Slot.t) : bool :=
  match Slot.userIds slot with
  | Some (_ :: _) => true
  | _ => false
  end.

(** Lines 340-360. *)
Definition narrowLooseHosts (userAvailability : list UserAvailability.t)
    (props : AvailabilityCheckProps.t) (availableTimeSlots : list Slot.t) : list Slot.t :=
  let looseHostAvailability :=
    List.filter (fun a => negb (isFixedHost a)) userAvailability in
  if (0 <? List.length looseHostAvailability)%nat
  then List.filter hasUserIds
         (map (narrowSlot looseHostAvailability props) availableTimeSlots)
  else availableTimeSlots.

(** ** Aggregation *)

(** Lines 373-375: the [users] of every descriptor. *)
Definition declaredUsernames (eventType : EventType.t) : list string :=
  map (fun user => match User.username user with Some n => n | None => EmptyString end)
    (match EventType.hosts eventType with
     | Some hosts => map Host.user hosts
     | None => EventType.users eventType
     end).

(** [currentSeats[currentSeats.findIndex(...)]] under the guard
    [currentSeats?.some(...)], lines 377-386. *)
Definition seatOf (currentSeats : option CurrentSeats) (time : Z) : option Seat.t :=
  if someSeatAt currentSeats time
  then match currentSeats with
       | Some seats => List.find (seatAt time) seats
       | None => None
       end
  else None.

Definition describeSlot (eventType : EventType.t) (currentSeats : option CurrentSeats)
    (slot : Slot.t) : SlotDescriptor.t :=
  SlotDescriptor.mk (Slot.userIds slot) (Slot.time slot)
    (declaredUsernames eventType)
    (option_map Seat.attendees (seatOf currentSeats (Slot.time slot)))
    (option_map Seat.uid (seatOf currentSeats (Slot.time slot))).

(** [a || b] where [b] too may be absent. *)
Definition orElseOpt (a b : option Z) : option Z :=
  if truthy a then a else b.

(** ** The collaborators *)

(** The functions [getSchedule] imports from the rest of the application
    and from libraries.  Each is a function of its arguments for the time
    of one request (the clock they read does not move).
    [knowsTimeZone zone] says that the runtime knows the time zone of
    that name: [tz(zone)] of the date library throws a [RangeError] for a
    name it does not know. *)
Module Collaborators.
Record t : Type := mk {
  EventTypeMetaDataSchema_parse : string -> option string;
  getDefaultEvent : string -> EventType.t;
  getUserAvailability : AvailabilityQuery.t -> InitialData.t -> AvailabilityResult.t;
  getAggregateWorkingHours :
    list UserAvailability.t -> option SchedulingType -> list WorkingHours.t;
  getTimeSlots : TimeSlotsArgs.t -> list Slot.t;
  isTimeOutOfBounds : Z -> PeriodConfig.t -> bool;
  format_YYYY_MM_DD : Z -> string;
  knowsTimeZone : string -> bool }.
End Collaborators.

Abbreviation Slots := (gmap string (list SlotDescriptor.t)).

(** The answer [r] lists the descriptor [d] under the day [key]. *)
Definition emits (r : Slots) (key : string) (d : SlotDescriptor.t) : Prop :=
  exists l, r !! key = Some l /\ In d l.

Section Schedule.

Variable env : Collaborators.t.

(** *** Resolving the event type *)

Definition getEventType (ctx : Prisma.t) (input : Input.t) : Result (option EventType.t) :=
  match Prisma.eventType_findUnique ctx (Input.eventTypeId input) with
  | None => Ok None
  | Some eventType =>
      match Collaborators.EventTypeMetaDataSchema_parse env (EventType.metadata eventType) with
      | Some metadata => Ok (Some (EventType.with_metadata eventType metadata))
      | None => Err ZodError
      end
  end.

Definition disallowsDynamicBooking (user : User.t) : bool :=
  match User.allowDynamicBooking user with
  | Some true => false
  | _ => true
  end.

Definition getDynamicEventType (ctx : Prisma.t) (input : Input.t) : Result EventType.t :=
  let dynamicEventType := Collaborators.getDefaultEvent env (Input.eventTypeSlug input) in
  let users := Prisma.user_findMany ctx (Input.usernameList input) in
  let isDynamicAllowed := negb (existsb disallowsDynamicBooking users) in
  if negb isDynamicAllowed
  then Err (TRPCError UNAUTHORIZED
              "Some of the users in this group do not allow dynamic booking")
  else Ok (EventType.with_users dynamicEventType users).

(** [!input.eventTypeId] *)
Definition isDynamicBooking (input : Input.t) : bool :=
  negb (truthy (Input.eventTypeId input)).

Definition getRegularOrDynamicEventType (ctx : Prisma.t) (input : Input.t)
    : Result (option EventType.t) :=
  if isDynamicBooking input
  then match getDynamicEventType ctx input with
       | Ok eventType => Ok (Some eventType)
       | Err f => Err f
       end
  else getEventType ctx input.

(** *** Availability of the hosts *)

Definition lookupAvailability (input : Input.t) (eventType : EventType.t)
    (startTime endTime : Z) (currentUser : Host.t) : AvailabilityResult.t :=
  Collaborators.getUserAvailability env
    (AvailabilityQuery.mk
       (User.id (Host.user currentUser))
       (match User.username (Host.user currentUser) with
        | Some n => n
        | None => EmptyString
        end)
       startTime endTime
       (Input.eventTypeId input)
       (EventType.afterEventBuffer eventType)
       (EventType.beforeEventBuffer eventType))
    (InitialData.mk currentUser eventType None).

Definition availabilityOf (input : Input.t) (eventType : EventType.t)
    (startTime endTime : Z) (currentUser : Host.t) : UserAvailability.t :=
  let r := lookupAvailability input eventType startTime endTime currentUser in
  UserAvailability.mk (AvailabilityResult.timeZone r)
    (AvailabilityResult.workingHours r) (AvailabilityResult.dateOverrides r)
    (AvailabilityResult.busy r) currentUser.

(** Lines 280-282; a [userId] the override already has is kept. *)
Definition flattenDateOverrides (userAvailability : list UserAvailability.t)
    : list DateOverride.t :=
  flat_map
    (fun availability =>
       map (fun override =>
              match DateOverride.userId override with
              | Some _ => override
              | None => DateOverride.with_userId override (hostId availability)
              end)
           (UserAvailability.dateOverrides availability))
    userAvailability.

(** *** Generation, bounds, aggregation *)

(** The argument of [getTimeSlots], lines 312-319. *)
Definition timeSlotsArgs (input : Input.t) (eventType : EventType.t)
    (workingHours : list WorkingHours.t) (dateOverrides : list DateOverride.t)
    (currentCheckedTime : Z) : TimeSlotsArgs.t :=
  TimeSlotsArgs.mk currentCheckedTime
    (orElse (Input.duration input) (EventType.length eventType))
    workingHours dateOverrides
    (EventType.minimumBookingNotice eventType)
    (orElse (orElseOpt (EventType.slotInterval eventType) (Input.duration input))
       (EventType.length eventType)).

Definition generateTimeSlots (input : Input.t) (eventType : EventType.t)
    (workingHours : list WorkingHours.t) (dateOverrides : list DateOverride.t)
    (startTime endTime : Z) : list Slot.t :=
  flat_map
    (fun currentCheckedTime =>
       Collaborators.getTimeSlots env
         (timeSlotsArgs input eventType workingHours dateOverrides currentCheckedTime))
    (loopDates startTime endTime).

(** Lines 289-296. *)
Definition isTimeWithinBounds (eventType : EventType.t) (time : Z) : bool :=
  negb (Collaborators.isTimeOutOfBounds env time
          (PeriodConfig.mk
             (EventType.periodType eventType)
             (EventType.periodStartDate eventType)
             (EventType.periodEndDate eventType)
             (EventType.periodCountCalendarDays eventType)
             (EventType.periodDays eventType))).

(** The callback of [reduce], lines 365-389. *)
Definition pushSlot (eventType : EventType.t) (currentSeats : option CurrentSeats)
    (r : Slots) (slot : Slot.t) : Slots :=
  let key := Collaborators.format_YYYY_MM_DD env (Slot.time slot) in
  <[ key := default [] (r !! key) ++ [describeSlot eventType currentSeats slot] ]> r.

Definition aggregateSlots (eventType : EventType.t) (currentSeats : option CurrentSeats)
    (availableTimeSlots : list Slot.t) : Slots :=
  fold_left (pushSlot eventType currentSeats) availableTimeSlots ∅.

(** *** The pipeline, from line 237 on *)

Definition userAvailabilityOf (input : Input.t) (eventType : EventType.t)
    (startTime endTime : Z) : list UserAvailability.t :=
  map (availabilityOf input eventType startTime endTime) (scheduleUsers eventType).

Definition currentSeatsOf (input : Input.t) (eventType : EventType.t)
    (startTime endTime : Z) (completion : list nat) : option CurrentSeats :=
  settleCurrentSeats
    (map (lookupAvailability input eventType startTime endTime) (scheduleUsers eventType))
    completion.

Definition availabilityCheckPropsOf (input : Input.t) (eventType : EventType.t)
    (startTime endTime : Z) (completion : list nat) : AvailabilityCheckProps.t :=
  AvailabilityCheckProps.mk (EventType.length eventType)
    (currentSeatsOf input eventType startTime endTime completion).

Definition timeSlotsOf (input : Input.t) (eventType : EventType.t)
    (startTime endTime : Z) : list Slot.t :=
  let userAvailability := userAvailabilityOf input eventType startTime endTime in
  let dateOverrides := flattenDateOverrides userAvailability in
  let workingHours :=
    Collaborators.getAggregateWorkingHours env userAvailability
      (EventType.schedulingType eventType) in
  generateTimeSlots input eventType workingHours dateOverrides startTime endTime.

(** What the generator returns in the round of the day loop that comes
    [k] days after [startTime]. *)
Definition slotsOfRound (input : Input.t) (eventType : EventType.t)
    (startTime endTime k : Z) : list Slot.t :=
  let userAvailability := userAvailabilityOf input eventType startTime endTime in
  Collaborators.getTimeSlots env
    (timeSlotsArgs input eventType
       (Collaborators.getAggregateWorkingHours env userAvailability
          (EventType.schedulingType eventType))
       (flattenDateOverrides userAvailability)
       (Dayjs.add_days startTime k)).

(** The slots after both availability stages (line 360). *)
Definition availableAfterHosts (input : Input.t) (eventType : EventType.t)
    (startTime endTime : Z) (completion : list nat) : list Slot.t :=
  let userAvailability := userAvailabilityOf input eventType startTime endTime in
  let props := availabilityCheckPropsOf input eventType startTime endTime completion in
  narrowLooseHosts userAvailability props
    (filterFixedHosts userAvailability props
       (timeSlotsOf input eventType startTime endTime)).

(** The slots after the bounds filter (line 362). *)
Definition availableTimeSlotsOf (input : Input.t) (eventType : EventType.t)
    (startTime endTime : Z) (completion : list nat) : list Slot.t :=
  List.filter (fun slot => isTimeWithinBounds eventType (Slot.time slot))
    (availableAfterHosts input eventType startTime endTime completion).

Definition computedAvailableSlots (input : Input.t) (eventType : EventType.t)
    (startTime endTime : Z) (completion : list nat) : Slots :=
  aggregateSlots eventType
    (currentSeatsOf input eventType startTime endTime completion)
    (availableTimeSlotsOf input eventType startTime endTime completion).

(** *** The range of the request, lines 227-232 *)

(** [tz(input.timeZone)] throws: the zone is given, is not "Etc/GMT"
    (for which [tz] is not called) and is not known to the runtime.
    Without a zone [tz] takes the default one. *)
Definition rejectsTimeZone (input : Input.t) : bool :=
  match Input.timeZone input with
  | Some zone =>
      negb (String.eqb zone "Etc/GMT") && negb (Collaborators.knowsTimeZone env zone)
  | None => false
  end.

(** [input.timeZone === "Etc/GMT" ? dayjs.utc(text) :
    dayjs(text).utc().tz(input.timeZone)], where [time] is the instant
    the library reads from [text].  [utc] and [tz] keep the instant, and
    an invalid date stays invalid. *)
Definition inTimeZone (input : Input.t) (time : option Z) : Result (option Z) :=
  if rejectsTimeZone input then Err RangeError else Ok time.

Definition getSchedule (input : Input.t) (ctx : Prisma.t) (completion : list nat)
    : Result Slots :=
  match getRegularOrDynamicEventType ctx input with
  | Err f => Err f
  | Ok None => Err (TRPCError NOT_FOUND EmptyString)
  | Ok (Some eventType) =>
      match inTimeZone input (Input.startTime input) with
      | Err f => Err f
      | Ok startTime =>
          match inTimeZone input (Input.endTime input) with
          | Err f => Err f
          | Ok endTime =>
              match startTime, endTime with
              | Some startTime, Some endTime =>
                  Ok (computedAvailableSlots input eventType startTime endTime completion)
              | _, _ => Err (TRPCError BAD_REQUEST "Invalid time range given.")
              end
          end
      end
  end.

End Schedule.

(** ** Collaborators modelled from the specification

    The slot generator, the working-hours aggregator and the bounds
    predicate are collaborators of [getSchedule]; the definitions below
    follow what the specification says of them and serve to run
    [getSchedule] on concrete requests. *)

Module SpecModel.

(** Sunday is 0; the epoch fell on a Thursday. *)
Definition weekday (t : Z) : Z := (t / Dayjs.MILLISECONDS_A_DAY + 4) mod 7.

(** A window in which slots may start and end, and the host it belongs to. *)
Record Window : Type := mkWindow { opens : Z; closes : Z; host : option Z }.

Definition overridesOfDay (day : Z) (dateOverrides : list DateOverride.t)
    : list DateOverride.t :=
  List.filter (fun o => Dayjs.startOfDay (DateOverride.date o) =? day) dateOverrides.

Definition sameHost (a b : option Z) : bool :=
  match a, b with
  | Some x, Some y => x =? y
  | None, None => true
  | _, _ => false
  end.

Definition windowsOfDay (day : Z) (workingHours : list WorkingHours.t)
    (dateOverrides : list DateOverride.t) : list Window :=
  let overrides := overridesOfDay day dateOverrides in
  flat_map
    (fun wh =>
       if existsb (Z.eqb (weekday day)) (WorkingHours.days wh) &&
          negb (existsb (fun o => sameHost (DateOverride.userId o) (WorkingHours.userId wh))
                  overrides)
       then [mkWindow
               (day + WorkingHours.startTime wh * Dayjs.MILLISECONDS_A_MINUTE)
               (day + WorkingHours.endTime wh * Dayjs.MILLISECONDS_A_MINUTE)
               (WorkingHours.userId wh)]
       else [])
    workingHours
  ++
  flat_map
    (fun o =>
       map (fun i => mkWindow (EventBusyDate.start i) (EventBusyDate.end_ i)
                       (DateOverride.userId o))
           (DateOverride.intervals o))
    overrides.

(** The start times of one window: from the later of the window's start
    and the notice boundary, by [step], as long as the event still fits. *)
Definition startTimes (first step duration closes : Z) : list Z :=
  if step <=? 0 then []
  else map (fun k => first + Z.of_nat k * step)
         (seq 0 (Z.to_nat ((closes - duration - first) / step + 1))).

Fixpoint insertSlot (time : Z) (host : option Z) (slots : list Slot.t) : list Slot.t :=
  let ids := match host with Some u => [u] | None => [] end in
  match slots with
  | [] => [Slot.mk time (Some ids)]
  | s :: rest =>
      if time <? Slot.time s then Slot.mk time (Some ids) :: slots
      else if time =? Slot.time s
      then Slot.mk time (Some (default [] (Slot.userIds s) ++ ids)) :: rest
      else s :: insertSlot time host rest
  end.

(** Modelled from the spec: the slot generator [getTimeSlots] of the
    application's library (component design, Slot Generator), for one
    calendar day; [now] is the clock it reads. *)
Definition getTimeSlots (now : Z) (args : TimeSlotsArgs.t) : list Slot.t :=
  let day := Dayjs.startOfDay (TimeSlotsArgs.inviteeDate args) in
  let duration := TimeSlotsArgs.eventLength args * Dayjs.MILLISECONDS_A_MINUTE in
  let step :=
    (if TimeSlotsArgs.frequency args =? 0
     then TimeSlotsArgs.eventLength args
     else TimeSlotsArgs.frequency args) * Dayjs.MILLISECONDS_A_MINUTE in
  let notice :=
    now + TimeSlotsArgs.minimumBookingNotice args * Dayjs.MILLISECONDS_A_MINUTE in
  fold_left
    (fun slots w =>
       fold_left (fun slots time => insertSlot time (host w) slots)
         (startTimes (Z.max (opens w) notice) step duration (closes w))
         slots)
    (windowsOfDay day (TimeSlotsArgs.workingHours args) (TimeSlotsArgs.dateOverrides args))
    [].

(** Modelled from the spec: the working-hours aggregator (component
    design, Working-Hours Aggregator), which hands the hosts' working
    hours through without intersecting them. *)
Definition getAggregateWorkingHours (userAvailability : list UserAvailability.t)
    (schedulingType : option SchedulingType) : list WorkingHours.t :=
  flat_map
    (fun availability =>
       map (fun wh =>
              match WorkingHours.userId wh with
              | Some _ => wh
              | None =>
                  WorkingHours.mk (WorkingHours.days wh) (WorkingHours.startTime wh)
                    (WorkingHours.endTime wh) (Some (hostId availability))
              end)
           (UserAvailability.workingHours availability))
    userAvailability.

(** Modelled from the spec: the bounds predicate [isTimeOutOfBounds]
    (component design, Bounds Filter).  How business days are counted is
    not said there: [businessDaysAdd] stands for it. *)
Definition isTimeOutOfBounds (now : Z) (businessDaysAdd : Z -> Z -> Z)
    (time : Z) (period : PeriodConfig.t) : bool :=
  match PeriodConfig.periodType period with
  | UNLIMITED => false
  | ROLLING =>
      let days := match PeriodConfig.periodDays period with Some d => d | None => 0 end in
      let last :=
        match PeriodConfig.periodCountCalendarDays period with
        | Some true => Dayjs.add_days now days
        | _ => businessDaysAdd now days
        end in
      last <? time
  | RANGE =>
      match PeriodConfig.periodStartDate period with
      | Some s => time <? s
      | None => false
      end
      ||
      match PeriodConfig.periodEndDate period with
      | Some e => e <? time
      | None => false
      end
  end.

(** The date of an instant in UTC, from the day number. *)
Definition civil (t : Z) : Z * Z * Z :=
  let z := t / Dayjs.MILLISECONDS_A_DAY + 719468 in
  let era := z / 146097 in
  let doe := z - era * 146097 in
  let yoe := (doe - doe / 1460 + doe / 36524 - doe / 146096) / 365 in
  let doy := doe - (365 * yoe + yoe / 4 - yoe / 100) in
  let mp := (5 * doy + 2) / 153 in
  let d := doy - (153 * mp + 2) / 5 + 1 in
  let m := if mp <? 10 then mp + 3 else mp - 9 in
  (if m <=? 2 then yoe + era * 400 + 1 else yoe + era * 400, m, d).

Definition digit (n : Z) : string :=
  String (Ascii.ascii_of_nat (48 + Z.to_nat (n mod 10))) EmptyString.

Definition pad2 (n : Z) : string := digit (n / 10) ++ digit n.

Definition pad4 (n : Z) : string :=
  digit (n / 1000) ++ digit (n / 100) ++ digit (n / 10) ++ digit n.

(** [time.format("YYYY-MM-DD")] in UTC. *)
Definition format_YYYY_MM_DD (t : Z) : string :=
  let '(y, m, d) := civil t in
  pad4 y ++ "-" ++ pad2 m ++ "-" ++ pad2 d.

End SpecModel.

(** ** Concrete requests

    One day, 2024-01-01 (a Monday), three users, and the collaborators of
    [SpecModel]; the clock stands thirty days earlier. *)

Module Scenario.

Definition jan1 : Z := 1704067200000.
Definition clock (h m : Z) : Z := jan1 + h * 3600000 + m * Dayjs.MILLISECONDS_A_MINUTE.
Definition now : Z := jan1 - 30 * Dayjs.MILLISECONDS_A_DAY.

Definition alice : User.t := User.mk 1 (Some "alice") (Some true).
Definition bob : User.t := User.mk 2 (Some "bob") (Some true).
Definition carol : User.t := User.mk 3 (Some "carol") (Some true).
Definition dave : User.t := User.mk 4 (Some "dave") (Some false).

Definition nineToFive : WorkingHours.t :=
  WorkingHours.mk [0; 1; 2; 3; 4; 5; 6] 540 1020 None.

Definition free : AvailabilityResult.t :=
  AvailabilityResult.mk [] [nineToFive] [] None "UTC".

Definition busyBetween (s e : Z) (seats : option CurrentSeats) : AvailabilityResult.t :=
  AvailabilityResult.mk [EventBusyDate.mk s e] [nineToFive] [] seats "UTC".

(** What the availability collaborator answers, by user id. *)
Definition answer (table : list (Z * AvailabilityResult.t))
    (q : AvailabilityQuery.t) (_ : InitialData.t) : AvailabilityResult.t :=
  match List.find (fun e => fst e =? AvailabilityQuery.userId q) table with
  | Some e => snd e
  | None => AvailabilityResult.mk [] [] [] None "UTC"
  end.

Definition event (id length : Z) (schedulingType : option SchedulingType)
    (hosts : option (list Host.t)) (users : list User.t) : EventType.t :=
  EventType.mk id 0 length None None 0 0 schedulingType UNLIMITED None None None None
    "{}" hosts users.

Definition dynamicEvent : EventType.t := event 0 30 (Some COLLECTIVE) None [].

Definition env (table : list (Z * AvailabilityResult.t)) : Collaborators.t :=
  Collaborators.mk
    (fun metadata => Some metadata)
    (fun _ => dynamicEvent)
    (answer table)
    SpecModel.getAggregateWorkingHours
    (SpecModel.getTimeSlots now)
    (SpecModel.isTimeOutOfBounds now Dayjs.add_days)
    SpecModel.format_YYYY_MM_DD
    (fun zone => String.eqb zone "UTC" || String.eqb zone "Europe/London").

Definition prisma (events : list EventType.t) (users : list User.t) : Prisma.t :=
  Prisma.mk
    (fun id =>
       match id with
       | Some n => List.find (fun e => EventType.id e =? n) events
       | None => None
       end)
    (fun names =>
       match names with
       | Some ns =>
           List.filter
             (fun u =>
                match User.username u with
                | Some n => existsb (String.eqb n) ns
                | None => false
                end)
             users
       | None => users
       end).

Definition request (startTime endTime : Z) (eventTypeId : option Z) : Input.t :=
  Input.mk (Some startTime) (Some endTime) eventTypeId "30" (Some "Etc/GMT")
    None None None.

(** A personal event of alice, thirty minutes long. *)
Definition personal : EventType.t := event 1 30 None (Some []) [alice].

(** A team event: alice is a fixed host, bob and carol are loose hosts. *)
Definition team : EventType.t :=
  event 2 30 (Some ROUND_ROBIN)
    (Some [Host.mk true alice; Host.mk false bob; Host.mk false carol])
    [alice; bob; carol].

(** A personal event that may be booked from 10:00 to 12:00 only. *)
Definition ranged : EventType.t :=
  EventType.mk 3 0 30 None None 0 0 None RANGE
    (Some (clock 10 0)) (Some (clock 12 0)) None None "{}" (Some []) [alice].

(** A seated team event of alice and bob, both fixed hosts. *)
Definition seated : EventType.t :=
  EventType.mk 4 0 30 (Some 5) None 0 0 (Some COLLECTIVE) UNLIMITED None None None None
    "{}" (Some [Host.mk true alice; Host.mk true bob]) [alice; bob].

Definition seatsA : CurrentSeats := [Seat.mk "booking-A" (clock 10 0) 1].
Definition seatsB : CurrentSeats := [Seat.mk "booking-B" (clock 10 0) 2].

Definition freeWith (seats : CurrentSeats) : AvailabilityResult.t :=
  AvailabilityResult.mk [] [nineToFive] [] (Some seats) "UTC".

(** A request for a dynamic group of user names. *)
Definition groupRequest (names : list string) : Input.t :=
  Input.mk (Some jan1) (Some (jan1 + Dayjs.MILLISECONDS_A_DAY)) None "30"
    (Some "Etc/GMT") (Some names) None None.

(** A seated event of alice that may be booked from 10:00 to 12:00 only. *)
Definition seatedRanged : EventType.t :=
  EventType.mk 5 0 30 (Some 5) None 0 0 None RANGE
    (Some (clock 10 0)) (Some (clock 12 0)) None None "{}" (Some []) [alice].

Definition events : list EventType.t := [personal; team; ranged; seated].
Definition people : list User.t := [alice; bob; carol; dave].

Definition wholeDay (eventTypeId : Z) : Input.t :=
  request jan1 (jan1 + Dayjs.MILLISECONDS_A_DAY) (Some eventTypeId).

(** The same day, asked for from a time zone; [endTime] is the instant
    read from the request, which may be an invalid date. *)
Definition wholeDayIn (zone : string) (endTime : option Z) (eventTypeId : Z) : Input.t :=
  Input.mk (Some jan1) endTime (Some eventTypeId) "30" (Some zone) None None None.

Definition descriptor (h m : Z) (userIds : list Z) (users : list string)
    : SlotDescriptor.t :=
  SlotDescriptor.mk (Some userIds) (clock h m) users None None.

(** The slot times an answer lists under a day. *)
Definition timesOn (key : string) (r : Result Slots) : list Z :=
  match r with
  | Ok slots => map SlotDescriptor.time (default [] (slots !! key))
  | Err _ => []
  end.

End Scenario.

(** ** The schema of the request, and times moved together *)

(** The refinement of [getScheduleSchema], lines 58-61:
    [!!data.eventTypeId || !!data.usernameList]; an array is truthy, also
    an empty one. *)
Definition getScheduleSchema_refine (input : Input.t) : bool :=
  truthy (Input.eventTypeId input) ||
  match Input.usernameList input with
  | Some _ => true
  | None => false
  end.

(** A busy interval and a seat entry, [delta] milliseconds later. *)
Definition shiftBusy (delta : Z) (b : EventBusyDate.t) : EventBusyDate.t :=
  EventBusyDate.mk (EventBusyDate.start b + delta) (EventBusyDate.end_ b + delta).

Definition shiftSeat (delta : Z) (s : Seat.t) : Seat.t :=
  Seat.mk (Seat.uid s) (Seat.startTime s + delta) (Seat.attendees s).

(** ** The two integration handlers

    [pages/api/very-hidden-booking.ts] and [pages/api/very-hidden-cancel.ts].
    A run of a handler is the list of the calls it issues to the database
    and to other services, in order, and what it answers. *)

Module Api.

(** A value of [req.query]: absent, one string, or several. *)
Inductive QueryValue : Type :=
| Absent
| Single (s : string)
| Multiple (l : list string).

(** [value !== process.env.MIGRUN_INTEGRATION_KEY]: the variable is a
    string or is not set, and an array is never equal to either. *)
Definition differs (value : QueryValue) (secret : option string) : bool :=
  match value, secret with
  | Absent, None => false
  | Single s, Some k => negb (String.eqb s k)
  | _, _ => true
  end.

(** [hay.includes(needle)] and [s.endsWith(suffix)]. *)
Definition includes (needle hay : string) : bool :=
  match String.index 0 needle hay with
  | Some _ => true
  | None => false
  end.

Definition endsWith (suffix s : string) : bool :=
  (String.length suffix <=? String.length s)%nat &&
  String.eqb
    (String.substring (String.length s - String.length suffix) (String.length suffix) s)
    suffix.

(** How a handler ends: a response with a status and a message, a status
    set on a response that is never sent, or an exception. *)
Inductive Outcome (Body : Type) : Type :=
| Responded (status : Z) (body : Body)
| StatusSet (status : Z)
| Threw (statusCode : option Z) (message : string).
Arguments Responded {Body} status body.
Arguments StatusSet {Body} status.
Arguments Threw {Body} statusCode message.

End Api.

Module BookingApi.

Record Query : Type := mkQuery {
  eventTypeId : Api.QueryValue;
  name : Api.QueryValue;
  email : Api.QueryValue;
  start : Api.QueryValue;
  end_ : Api.QueryValue;
  notes : Api.QueryValue;
  timezone : Api.QueryValue;
  key : Api.QueryValue }.

(** The columns of [bookEventTypeSelect] that [getEventType] reads; JSON
    columns as text. *)
Record EventTypeRow : Type := mkRow {
  slug : string;
  metadata : option string;
  recurringEvent : option string;
  locations : option (list string);
  periodStartDate : option Z;
  periodEndDate : option Z;
  customInputs : option (list string) }.

(** What [getEventType] returns for a row. *)
Record BookedEventType : Type := mkEventType {
  et_slug : string;
  et_metadata : string;
  et_recurringEvent : option string;
  et_locations : list string;
  et_periodStartDate : option string;
  et_periodEndDate : option string;
  et_schedulingType : option SchedulingType;
  et_customInputs : list string;
  et_users : list User.t }.

Record BookingCreateBody : Type := mkBody {
  b_name : Api.QueryValue;
  b_email : Api.QueryValue;
  b_locationType : string;
  b_notes : Api.QueryValue;
  b_start : Api.QueryValue;
  b_end : Api.QueryValue;
  b_timeZone : Api.QueryValue;
  b_eventTypeId : option Z;
  b_customInputs : list string;
  b_metadata : string;
  b_language : string;
  b_hasHashedBookingLink : bool;
  b_eventTypeSlug : string;
  b_location : string;
  b_guests : list string }.

Inductive DbAnswer : Type :=
| Row (row : EventTypeRow)
| NoRow
| DbThrows.

Inductive Effect : Type :=
| FindUnique (id : option Z)
| Post (url : string) (data : BookingCreateBody).

Inductive Body : Type :=
| Message (text : string)
| Booking (response : string)
| Error (error : string).

(** The environment variables and the functions the handler imports;
    [parseInt] answers [None] for [NaN], a [parse] answers [None] when it
    throws, [post] answers the booking or the error it is rejected with. *)
Record Env : Type := mkEnv {
  MIGRUN_INTEGRATION_KEY : option string;
  NEXT_PUBLIC_WEBAPP_URL : option string;
  asStringOrThrow : Api.QueryValue -> option string;
  parseInt : Api.QueryValue -> option Z;
  eventType_findUnique : option Z -> DbAnswer;
  EventTypeMetaDataSchema_parse : string -> option string;
  parseRecurringEvent : option string -> option string;
  privacyFilteredLocations : list string -> list string;
  customInputSchema_array_parse : list string -> option (list string);
  toString : Z -> string;
  getEventLocationValue : list string -> string -> string;
  post : string -> BookingCreateBody -> string + string }.

Inductive Attempt (A : Type) : Type :=
| Returns (a : A)
| Throws (message : string).
Arguments Returns {A} a.
Arguments Throws {A} message.

(** Lines 21-52. *)
Definition getEventType (env : Env) (id : Api.QueryValue)
    : list Effect * Attempt (option BookedEventType) :=
  match asStringOrThrow env id with
  | None => ([], Throws "asStringOrThrow")
  | Some text =>
      let n := parseInt env (Api.Single text) in
      match eventType_findUnique env n with
      | DbThrows => ([FindUnique n], Throws "findUnique")
      | NoRow => ([FindUnique n], Returns None)
      | Row eventTypeRaw =>
          match EventTypeMetaDataSchema_parse env
                  (default "{}" (metadata eventTypeRaw)) with
          | None => ([FindUnique n], Throws "EventTypeMetaDataSchema")
          | Some parsedMetadata =>
              let parsedRecurring :=
                parseRecurringEvent env (recurringEvent eventTypeRaw) in
              let filtered :=
                privacyFilteredLocations env (default [] (locations eventTypeRaw)) in
              match customInputSchema_array_parse env
                      (default [] (customInputs eventTypeRaw)) with
              | None => ([FindUnique n], Throws "customInputSchema")
              | Some inputs =>
                  ([FindUnique n],
                   Returns
                     (Some
                        (mkEventType (slug eventTypeRaw) parsedMetadata parsedRecurring
                           filtered
                           (option_map (toString env) (periodStartDate eventTypeRaw))
                           (option_map (toString env) (periodEndDate eventTypeRaw))
                           None inputs [])))
              end
          end
      end
  end.

Definition bookingUrl (env : Env) : string :=
  default "undefined" (NEXT_PUBLIC_WEBAPP_URL env) ++ "/api/book/event".

(** The body the handler posts, lines 87-111. *)
Definition bookingData (env : Env) (query : Query) (eventType : BookedEventType)
    : BookingCreateBody :=
  let locations := ["integrations:daily"] in
  let locationType := "integrations:daily" in
  mkBody (name query) (email query) locationType (notes query)
    (start query) (end_ query) (timezone query)
    (parseInt env (eventTypeId query))
    [] "{}" "en" false (et_slug eventType)
    (getEventLocationValue env locations locationType)
    [].

(** Lines 78-119. *)
Definition handler (env : Env) (query : Query) : list Effect * Api.Outcome Body :=
  if Api.differs (key query) (MIGRUN_INTEGRATION_KEY env)
  then ([], Api.Responded 401 (Message "Unauthorized"))
  else
    match getEventType env (eventTypeId query) with
    | (effects, Throws message) => (effects, Api.Threw None message)
    | (effects, Returns None) =>
        (effects, Api.Responded 404 (Message "Event type not found"))
    | (effects, Returns (Some eventType)) =>
        let data := bookingData env query eventType in
        let url := bookingUrl env in
        match post env url data with
        | inl booking => (effects ++ [Post url data], Api.Responded 200 (Booking booking))
        | inr error => (effects ++ [Post url data], Api.Responded 500 (Error error))
        end
    end.

Definition isPost (e : Effect) : bool :=
  match e with
  | Post _ _ => true
  | FindUnique _ => false
  end.

End BookingApi.

(** A request to book the event type 5 for Bob. *)
Module BookingScenario.

Import BookingApi.

Definition row : EventTypeRow :=
  mkRow "intro-call" None None None None None None.

Definition query (id : string) : Query :=
  mkQuery (Api.Single id) (Api.Single "Bob") (Api.Single "bob@example.com")
    (Api.Single "2024-01-01T10:00:00Z") (Api.Single "2024-01-01T10:30:00Z")
    Api.Absent (Api.Single "UTC") (Api.Single "secret").

Definition env (accepts : bool) : Env :=
  mkEnv (Some "secret") (Some "https://app.example.com")
    (fun value => match value with Api.Single text => Some text | _ => None end)
    (fun value => match value with Api.Single "5" => Some 5 | _ => None end)
    (fun id => match id with Some 5 => Row row | _ => NoRow end)
    (fun metadata => Some metadata)
    (fun recurringEvent => recurringEvent)
    (fun locations => locations)
    (fun inputs => Some inputs)
    (fun date => "date")
    (fun locations locationType => locationType)
    (fun url data => if accepts then inl "booked" else inr "refused").

End BookingScenario.

Module CancelApi.

Record Query : Type := mkQuery {
  key : Api.QueryValue;
  id : Api.QueryValue;
  uid : Api.QueryValue;
  allRemainingBookings : Api.QueryValue;
  cancellationReason : Api.QueryValue }.

(** What [schemaBookingCancelParams.parse] returns. *)
Record Params : Type := mkParams {
  p_id : option Z;
  p_uid : option string;
  p_allRemainingBookings : option bool;
  p_cancellationReason : option string }.

Record Credential : Type := mkCredential { c_id : Z; c_type : string }.

Record Reference : Type := mkReference {
  r_uid : string;
  r_type : string;
  r_externalCalendarId : option string;
  r_credentialId : option Z }.

Record Attendee : Type := mkAttendee {
  a_name : string;
  a_email : string;
  a_timeZone : string;
  a_locale : option string }.

Record BookingUser : Type := mkUser {
  u_id : Z;
  u_credentials : list Credential;
  u_email : string;
  u_timeZone : string;
  u_name : option string;
  u_destinationCalendar : option string }.

Record BookedEventType : Type := mkEventType {
  e_recurringEvent : option string;
  e_title : string }.

(** The columns of the booking that the handler reads. *)
Record Booking : Type := mkBooking {
  b_id : Z;
  b_title : string;
  b_description : option string;
  b_customInputs : option string;
  b_startTime : Z;
  b_endTime : Z;
  b_attendees : list Attendee;
  b_recurringEventId : option string;
  b_userId : option Z;
  b_user : option BookingUser;
  b_location : option string;
  b_references : list Reference;
  b_eventType : option BookedEventType;
  b_uid : string;
  b_destinationCalendar : option string }.

Record Organizer : Type := mkOrganizer {
  o_name : option string;
  o_email : string;
  o_timeZone : string;
  o_locale : option string }.

Record UpdatedBooking : Type := mkUpdated {
  ub_uid : string;
  ub_references : list Reference;
  ub_startTime : Z;
  ub_endTime : Z }.

Record Person : Type := mkPerson {
  name : string;
  email : string;
  timeZone : string;
  locale : string }.

(** The calendar event handed to the deletions; the two times are the
    instants that [format] prints, the translation functions are left
    out. *)
Record CalendarEvent : Type := mkEvent {
  evt_title : string;
  evt_type : string;
  evt_description : string;
  evt_customInputs : option string;
  evt_startTime : Z;
  evt_endTime : Z;
  evt_organizer : Person;
  evt_attendees : list Person;
  evt_uid : string;
  evt_location : option string;
  evt_destinationCalendar : option string;
  evt_cancellationReason : option string }.

Inductive Effect : Type :=
| FindBooking (id : option Z) (uid : option string)
| FindOrganizer (userId : Z)
| UpdateMany (recurringEventId : string) (since : Z) (reason : option string)
| FindMany (recurringEventId : string) (since : Z)
| Update (id : option Z) (uid : option string) (reason : option string)
| DeleteEvent (credential : Credential) (uid : string) (evt : CalendarEvent)
    (externalCalendarId : option string)
| DeleteMeeting (credential : Credential) (uid : string)
| DeleteAttendees (bookingId : Z)
| DeleteReferences (bookingId : Z).

(** The calls that change something, in the database or elsewhere. *)
Definition changes (e : Effect) : bool :=
  match e with
  | FindBooking _ _ | FindOrganizer _ | FindMany _ _ => false
  | _ => true
  end.

(** The environment variable, the constants and the functions the
    handler imports.  [clock n] is the [n]-th reading of [new Date()];
    [hasCalendar c] says that [getCalendar c] is not null; [settles e]
    says that the promise of the call [e] is fulfilled.  The queries of
    the database answer; [user_findFirst] and [booking_update] answer
    [None] when they throw. *)
Record Env : Type := mkEnv {
  MIGRUN_INTEGRATION_KEY : option string;
  parseInt : Api.QueryValue -> option Z;
  schemaBookingCancelParams_parse : Query -> option Z -> option Params;
  booking_findUnique : option Z -> option string -> option Booking;
  user_findFirst : Z -> option Organizer;
  booking_findMany : string -> Z -> list UpdatedBooking;
  booking_update : option Z -> option string -> option UpdatedBooking;
  clock : nat -> Z;
  hasCalendar : Credential -> bool;
  FAKE_DAILY_CREDENTIAL : Credential;
  DailyLocationType : string;
  settles : Effect -> bool }.

(** A run: the calls issued in order by the handler itself, the chains
    of calls it starts and does not wait for, and how it ends. *)
Record Run : Type := mkRun {
  issued : list Effect;
  detached : list (list Effect);
  outcome : Api.Outcome string }.

Definition nonEmpty (s : option string) : option string :=
  match s with
  | Some EmptyString => None
  | _ => s
  end.

(** Lines 118-151. *)
Definition calendarEvent (booking : Booking) (user : BookingUser)
    (organizer : Organizer) (reason : option string) : CalendarEvent :=
  mkEvent (b_title booking)
    (match option_map e_title (b_eventType booking) with
     | Some (String c s) => String c s
     | _ => b_title booking
     end)
    (default EmptyString (b_description booking))
    (b_customInputs booking)
    (b_startTime booking) (b_endTime booking)
    (mkPerson (default "Nameless" (o_name organizer)) (o_email organizer)
       (o_timeZone organizer) (default "en" (o_locale organizer)))
    (map (fun attendee =>
            mkPerson (a_name attendee) (a_email attendee) (a_timeZone attendee)
              (default "en" (a_locale attendee)))
       (b_attendees booking))
    (b_uid booking) (b_location booking)
    (match b_destinationCalendar booking with
     | Some calendar => Some calendar
     | None => u_destinationCalendar user
     end)
    reason.

(** [eventType?.recurringEvent && recurringEventId && allRemainingBookings],
    lines 167 and 255-259: the id of the series when all three hold. *)
Definition wholeSeries (booking : Booking) (params : Params) : option string :=
  match b_eventType booking with
  | Some eventType =>
      match e_recurringEvent eventType, nonEmpty (b_recurringEventId booking),
            p_allRemainingBookings params with
      | Some _, Some recurringEventId, Some true => Some recurringEventId
      | _, _, _ => None
      end
  | None => None
  end.

Definition calendarReference (references : list Reference) : option Reference :=
  List.find (fun reference => Api.includes "_calendar" (r_type reference)) references.

Definition videoReference (references : list Reference) : option Reference :=
  List.find (fun reference => Api.includes "_video" (r_type reference)) references.

Definition credentialWithId (credentials : list Credential) (credentialId : Z)
    : option Credential :=
  List.find (fun credential => c_id credential =? credentialId) credentials.

Definition calendarCredentials (credentials : list Credential) : list Credential :=
  List.filter (fun credential => Api.endsWith "_calendar" (c_type credential)) credentials.

Definition videoCredentials (credentials : list Credential) : list Credential :=
  List.filter (fun credential => Api.endsWith "_video" (c_type credential)) credentials.

(** [calendar?.deleteEvent(uid, evt, externalCalendarId)]: a call when
    the credential has a calendar. *)
Definition deleteEvent (env : Env) (credential : Credential) (uid : string)
    (evt : CalendarEvent) (externalCalendarId : option string) : list Effect :=
  if hasCalendar env credential
  then [DeleteEvent credential uid evt externalCalendarId]
  else [].

(** The calls of a chain up to the first one that is rejected: each call
    of the chain is awaited before the next one is made. *)
Fixpoint untilRejected (env : Env) (calls : list Effect) : list Effect :=
  match calls with
  | [] => []
  | call :: rest =>
      if settles env call then call :: untilRejected env rest else [call]
  end.

(** The callback of [forEach] at lines 262-272, for one credential. *)
Definition seriesChain (env : Env) (evt : CalendarEvent)
    (updatedBookings : list UpdatedBooking) (credential : Credential) : list Effect :=
  untilRejected env
    (flat_map
       (fun updBooking =>
          match calendarReference (ub_references updBooking) with
          | Some bookingRef =>
              deleteEvent env credential (r_uid bookingRef) evt
                (r_externalCalendarId bookingRef)
          | None => []
          end)
       updatedBookings).

(** Lines 241-286: the deletions pushed to [apiDeletes], and the chains
    started and left alone. *)
Definition calendarDeletes (env : Env) (booking : Booking) (params : Params)
    (credentials : list Credential) (evt : CalendarEvent)
    (updatedBookings : list UpdatedBooking) : list Effect * list (list Effect) :=
  match calendarReference (b_references booking) with
  | None => ([], [])
  | Some reference =>
      if truthy (r_credentialId reference)
      then
        match credentialWithId credentials (default 0 (r_credentialId reference)) with
        | None => ([], [])
        | Some calendarCredential =>
            match wholeSeries booking params with
            | Some _ =>
                ([], map (seriesChain env evt updatedBookings)
                       (calendarCredentials credentials))
            | None =>
                (deleteEvent env calendarCredential (r_uid reference) evt
                   (r_externalCalendarId reference), [])
            end
        end
      else
        (flat_map
           (fun credential =>
              deleteEvent env credential (r_uid reference) evt
                (r_externalCalendarId reference))
           (calendarCredentials credentials), [])
  end.

(** Lines 287-310. *)
Definition videoDeletes (booking : Booking) (credentials : list Credential)
    : list Effect :=
  let legacy :=
    map (fun credential => DeleteMeeting credential (b_uid booking))
      (videoCredentials credentials) in
  match videoReference (b_references booking) with
  | Some reference =>
      if truthy (r_credentialId reference)
      then
        match credentialWithId credentials (default 0 (r_credentialId reference)) with
        | Some videoCredential => [DeleteMeeting videoCredential (r_uid reference)]
        | None => []
        end
      else legacy
  | None => legacy
  end.

(** Lines 152-327, once the booking, its user and the organizer are
    known. *)
Definition cancelFound (env : Env) (params : Params) (booking : Booking)
    (user : BookingUser) (organizer : Organizer) (before : list Effect) : Run :=
  let reason := p_cancellationReason params in
  let evt := calendarEvent booking user organizer reason in
  let marked : option (list Effect * list UpdatedBooking) :=
    match wholeSeries booking params with
    | Some recurringEventId =>
        Some ([UpdateMany recurringEventId (clock env 1) reason;
               FindMany recurringEventId (clock env 2)],
              booking_findMany env recurringEventId (clock env 2))
    | None =>
        match booking_update env (p_id params) (p_uid params) with
        | Some updatedBooking =>
            Some ([Update (p_id params) (p_uid params) reason], [updatedBooking])
        | None => None
        end
    end in
  match marked with
  | None =>
      mkRun (before ++ [Update (p_id params) (p_uid params) reason]) []
        (Api.Threw None "update")
  | Some (writes, updatedBookings) =>
      let credentials :=
        if match b_location booking with
           | Some location => String.eqb location (DailyLocationType env)
           | None => false
           end
        then u_credentials user ++ [FAKE_DAILY_CREDENTIAL env]
        else u_credentials user in
      let '(calendar, chains) :=
        calendarDeletes env booking params credentials evt updatedBookings in
      let apiDeletes := calendar ++ videoDeletes booking credentials in
      let awaited :=
        [DeleteAttendees (b_id booking); DeleteReferences (b_id booking)] ++ apiDeletes in
      mkRun (before ++ writes ++ apiDeletes ++
             [DeleteAttendees (b_id booking); DeleteReferences (b_id booking)])
        chains
        (if forallb (settles env) awaited
         then Api.Responded 200 "Booking deleted"
         else Api.Threw None "Promise.all")
  end.

(** Lines 23-117. *)
Definition cancelMigrunBooking (env : Env) (query : Query) : Run :=
  if Api.differs (key query) (MIGRUN_INTEGRATION_KEY env)
  then mkRun [] [] (Api.Responded 401 "Unauthorized")
  else
    match schemaBookingCancelParams_parse env query (parseInt env (id query)) with
    | None => mkRun [] [] (Api.Threw None "schemaBookingCancelParams")
    | Some params =>
        let lookup := [FindBooking (p_id params) (p_uid params)] in
        match booking_findUnique env (p_id params) (p_uid params) with
        | None => mkRun lookup [] (Api.Threw (Some 400) "Booking not found")
        | Some bookingToDelete =>
            match b_user bookingToDelete with
            | None => mkRun lookup [] (Api.Threw (Some 400) "Booking not found")
            | Some user =>
                if b_startTime bookingToDelete <? clock env 0
                then mkRun lookup [] (Api.Threw (Some 400) "Cannot cancel past events")
                else
                  if negb (truthy (b_userId bookingToDelete))
                  then mkRun lookup [] (Api.Threw (Some 400) "User not found")
                  else
                    let userId := default 0 (b_userId bookingToDelete) in
                    match user_findFirst env userId with
                    | None =>
                        mkRun (lookup ++ [FindOrganizer userId]) []
                          (Api.Threw None "findFirstOrThrow")
                    | Some organizer =>
                        cancelFound env params bookingToDelete user organizer
                          (lookup ++ [FindOrganizer userId])
                    end
            end
        end
    end.

(** Lines 16-21; [method] is [req.method]. *)
Definition handler (env : Env) (method : option string) (query : Query) : Run :=
  if match method with
     | Some verb => String.eqb verb "DELETE"
     | None => false
     end
  then cancelMigrunBooking env query
  else mkRun [] [] (Api.StatusSet 404).

(** Every call of a run, awaited or not. *)
Definition calls (run : Run) : list Effect :=
  issued run ++ concat (detached run).

Definition isStatusWrite (e : Effect) : bool :=
  match e with
  | UpdateMany _ _ _ | Update _ _ _ => true
  | _ => false
  end.

Definition isDeletion (e : Effect) : bool :=
  match e with
  | DeleteEvent _ _ _ _ | DeleteMeeting _ _ | DeleteAttendees _ | DeleteReferences _ => true
  | _ => false
  end.

Definition isDeleteEvent (e : Effect) : bool :=
  match e with
  | DeleteEvent _ _ _ _ => true
  | _ => false
  end.

(** The credential a call to a calendar or a video service is made with. *)
Definition credentialOf (e : Effect) : option Credential :=
  match e with
  | DeleteEvent credential _ _ _ | DeleteMeeting credential _ => Some credential
  | _ => None
  end.

(** The same environment with other fates for the calls. *)
Definition withSettles (env : Env) (fate : Effect -> bool) : Env :=
  mkEnv (MIGRUN_INTEGRATION_KEY env) (parseInt env)
    (schemaBookingCancelParams_parse env) (booking_findUnique env)
    (user_findFirst env) (booking_findMany env) (booking_update env) (clock env)
    (hasCalendar env) (FAKE_DAILY_CREDENTIAL env) (DailyLocationType env) fate.

End CancelApi.

(** A booking of a weekly meeting on 2024-01-01 at 10:00, with a calendar
    event and a video meeting, asked to be cancelled a day before. *)
Module CancelScenario.

Import CancelApi.

Definition google : Credential := mkCredential 7 "google_calendar".
Definition zoom : Credential := mkCredential 8 "zoom_video".
Definition fakeDaily : Credential := mkCredential 0 "daily_video".

Definition references : list Reference :=
  [mkReference "cal-1" "google_calendar" (Some "primary") (Some 7);
   mkReference "meet-1" "zoom_video" None (Some 8)].

Definition owner : BookingUser :=
  mkUser 1 [google; zoom] "alice@example.com" "UTC" (Some "Alice") None.

Definition booking : Booking :=
  mkBooking 42 "Weekly" None None (Scenario.clock 10 0) (Scenario.clock 10 30)
    [mkAttendee "Bob" "bob@example.com" "UTC" None]
    (Some "series-1") (Some 1) (Some owner) (Some "integrations:zoom") references
    (Some (mkEventType (Some "{}") "Weekly meeting")) "uid-42" None.

Definition nextWeek : UpdatedBooking :=
  mkUpdated "uid-43"
    [mkReference "cal-2" "google_calendar" (Some "primary") (Some 7)]
    (Scenario.clock 178 0) (Scenario.clock 178 30).

Definition thisWeek : UpdatedBooking :=
  mkUpdated "uid-42" references (Scenario.clock 10 0) (Scenario.clock 10 30).

Definition query (allRemaining : string) : Query :=
  mkQuery (Api.Single "secret") (Api.Single "42") (Api.Single "uid-42")
    (Api.Single allRemaining) Api.Absent.

(** An environment in which the schema reads [allRemainingBookings] from
    the text of the query, and every call is fulfilled except those
    [rejected] says. *)
Definition env (rejected : Effect -> bool) : Env :=
  mkEnv (Some "secret")
    (fun value => match value with Api.Single "42" => Some 42 | _ => None end)
    (fun query id =>
       Some (mkParams id (Some "uid-42")
               (match allRemainingBookings query with
                | Api.Single "true" => Some true
                | _ => None
                end)
               None))
    (fun id uid => match id with Some 42 => Some booking | _ => None end)
    (fun userId => if userId =? 1
                   then Some (mkOrganizer (Some "Alice") "alice@example.com" "UTC" None)
                   else None)
    (fun recurringEventId since => [thisWeek; nextWeek])
    (fun id uid => Some thisWeek)
    (fun n => Scenario.jan1 - Dayjs.MILLISECONDS_A_DAY + Z.of_nat n)
    (fun credential => true)
    fakeDaily "integrations:daily"
    (fun e => negb (rejected e)).

End CancelScenario.

(** ** The availability predicate *)

Ltac dayjs_unfold :=
  unfold busyTimeAllows, Dayjs.isBetween, Dayjs.isBefore, Dayjs.isAfter,
    Dayjs.opensExclusive, Dayjs.closesExclusive, Dayjs.add_minutes,
    Dayjs.MILLISECONDS_A_MINUTE in *; simpl in *.

Ltac bool_cases :=
  repeat match goal with
  | |- context [?a <? ?b] => destruct (Z.ltb_spec a b)
  | H : context [?a <? ?b] |- _ => destruct (Z.ltb_spec a b)
  end; simpl in *.

Lemma busyTimeAllows_false_iff time eventLength b :
  0 < eventLength -> wellFormedBusy b ->
  busyTimeAllows time eventLength b = false <-> overlaps time eventLength b.
Proof.
  unfold wellFormedBusy, overlaps. destruct b as [s e]. intros Hd Hw.
  dayjs_unfold. bool_cases; split; intros; try discriminate; try lia; reflexivity.
Qed.

Lemma checkIfIsAvailable_no_seat time busy eventLength currentSeats :
  someSeatAt currentSeats time = false ->
  checkIfIsAvailable time busy eventLength currentSeats =
  forallb (busyTimeAllows time eventLength) busy.
Proof. unfold checkIfIsAvailable. intros ->. reflexivity. Qed.

Lemma forallb_false_exists {A} (f : A -> bool) (l : list A) :
  forallb f l = false <-> exists x, In x l /\ f x = false.
Proof.
  induction l as [|a l IH]; simpl.
  - split; [discriminate | intros (x & [] & _)].
  - rewrite andb_false_iff, IH. split.
    + intros [Ha | (x & Hx & Hf)]; [exists a | exists x]; auto.
    + intros (x & [<- | Hx] & Hf); [left | right; exists x]; auto.
Qed.

Lemma someSeatAt_true_iff currentSeats time :
  someSeatAt currentSeats time = true <->
  exists seats booking,
    currentSeats = Some seats /\ In booking seats /\ Seat.startTime booking = time.
Proof.
  unfold someSeatAt, seatAt. destruct currentSeats as [seats|].
  - rewrite existsb_exists. split.
    + intros (b & Hb & He). exists seats, b. repeat split; auto. lia.
    + intros (s & b & [= <-] & Hb & He). exists b. split; auto. lia.
  - split; [discriminate | intros (s & b & [=] & _)].
Qed.


(** C1, amended: for a positive duration and busy intervals that do not end
    before they start, and with no seat entry at the slot's time,
    [checkIfIsAvailable] answers false exactly when some busy interval [b]
    has [time < b.end] and [time + eventLength > b.start]; an interval
    that ends at the slot's start or starts at the slot's end does not
    block the slot. *)
Theorem checkIfIsAvailable_false_iff_overlap time eventLength busy currentSeats :
  0 < eventLength ->
  Forall wellFormedBusy busy ->
  someSeatAt currentSeats time = false ->
  (checkIfIsAvailable time busy eventLength currentSeats = false <->
   exists b, In b busy /\ overlaps time eventLength b) /\
  (forall b, In b busy ->
     EventBusyDate.end_ b = time \/
     EventBusyDate.start b = Dayjs.add_minutes time eventLength ->
     busyTimeAllows time eventLength b = true).
Proof.
  intros Hd Hw Hs. rewrite List.Forall_forall in Hw. split.
  - rewrite checkIfIsAvailable_no_seat by exact Hs.
    rewrite forallb_false_exists. split.
    + intros (b & Hb & Hf). exists b. split; [exact Hb|].
      exact (proj1 (busyTimeAllows_false_iff time eventLength b Hd (Hw b Hb)) Hf).
    + intros (b & Hb & Ho). exists b. split; [exact Hb|].
      exact (proj2 (busyTimeAllows_false_iff time eventLength b Hd (Hw b Hb)) Ho).
  - intros b Hb Hedge.
    destruct (busyTimeAllows time eventLength b) eqn:E; [reflexivity|].
    specialize (Hw b Hb).
    apply (busyTimeAllows_false_iff time eventLength b Hd Hw) in E. unfold overlaps, wellFormedBusy, Dayjs.add_minutes,
      Dayjs.MILLISECONDS_A_MINUTE in *. lia.
Qed.

Lemma checkIfIsAvailable_false_iff_overlap_witness :
  let busy := [EventBusyDate.mk (Scenario.clock 10 0) (Scenario.clock 10 30)] in
  (checkIfIsAvailable (Scenario.clock 10 15) busy 30 None = false <->
   exists b, In b busy /\ overlaps (Scenario.clock 10 15) 30 b) /\
  (forall b, In b busy ->
     EventBusyDate.end_ b = Scenario.clock 10 15 \/
     EventBusyDate.start b = Dayjs.add_minutes (Scenario.clock 10 15) 30 ->
     busyTimeAllows (Scenario.clock 10 15) 30 b = true).
Proof.
  apply checkIfIsAvailable_false_iff_overlap.
  - lia.
  - repeat constructor. unfold wellFormedBusy. vm_compute. discriminate.
  - reflexivity.
Defined.

(** The two boundary tests of the specification: a slot of thirty minutes
    right after a busy interval is available, one that starts inside it is
    not. *)
Example back_to_back_available :
  checkIfIsAvailable (Scenario.clock 10 30)
    [EventBusyDate.mk (Scenario.clock 10 0) (Scenario.clock 10 30)] 30 None = true.
Proof. reflexivity. Qed.

Example overlapping_unavailable :
  checkIfIsAvailable (Scenario.clock 10 15)
    [EventBusyDate.mk (Scenario.clock 10 0) (Scenario.clock 10 30)] 30 None = false.
Proof. reflexivity. Qed.

(** C1 as stated fails for a duration of zero (a slot at the start of a
    busy interval is refused although [time + 0 > b.start] is false) and
    for a busy interval whose end precedes its start. *)
Lemma checkIfIsAvailable_overlap_rule_fails :
  (let busy := [EventBusyDate.mk (Scenario.clock 10 0) (Scenario.clock 10 30)] in
   checkIfIsAvailable (Scenario.clock 10 0) busy 0 None = false /\
   ~ (exists b, In b busy /\ overlaps (Scenario.clock 10 0) 0 b)) /\
  (let busy := [EventBusyDate.mk (Scenario.clock 10 30) (Scenario.clock 10 0)] in
   checkIfIsAvailable (Scenario.clock 10 0) busy 60 None = false /\
   ~ (exists b, In b busy /\ overlaps (Scenario.clock 10 0) 60 b)).
Proof.
  split; (split; [reflexivity|]);
    intros (b & [<- | []] & H1 & H2); vm_compute in H1, H2;
    first [discriminate H1 | discriminate H2].
Qed.

(** ** The day loop *)

Lemma checkedTimes_In rounds c endTime x :
  In x (checkedTimes rounds c endTime) <->
  exists k, 0 <= k < Z.of_nat rounds /\ x = Dayjs.add_days c k /\ x < endTime.
Proof.
  revert c. induction rounds as [|n IH]; intros c.
  - simpl. split; [intros [] | intros (k & Hk & _); lia].
  - cbn [checkedTimes]. unfold Dayjs.isBefore.
    destruct (Z.ltb_spec c endTime) as [Hlt | Hge].
    + cbn [In]. rewrite IH. unfold Dayjs.add_days, Dayjs.MILLISECONDS_A_DAY. split.
      * intros [<- | (k & Hk & -> & Hx)].
        -- exists 0. lia.
        -- exists (k + 1). lia.
      * intros (k & Hk & -> & Hx).
        destruct (Z.eq_dec k 0) as [-> | Hne]; [left; lia|].
        right. exists (k - 1). lia.
    + split; [intros [] |]. unfold Dayjs.add_days, Dayjs.MILLISECONDS_A_DAY.
      intros (k & Hk & -> & Hx). lia.
Qed.

(** The dates the loop visits: [startTime + k] days, for each [k >= 0]
    that keeps the date before [endTime]. *)
Lemma loopDates_In startTime endTime x :
  In x (loopDates startTime endTime) <->
  exists k, 0 <= k /\ x = Dayjs.add_days startTime k /\ x < endTime.
Proof.
  unfold loopDates. rewrite checkedTimes_In. split.
  - intros (k & Hk & Hx). exists k. split; [lia | exact Hx].
  - intros (k & Hk & -> & Hx). exists k. split; [|split; [reflexivity | exact Hx]].
    unfold loopRounds, Dayjs.add_days, Dayjs.MILLISECONDS_A_DAY in *.
    assert (k <= (endTime - startTime) / 86400000)
      by (apply Z.div_le_lower_bound; lia).
    lia.
Qed.

Lemma checkedTimes_exit rounds c endTime :
  endTime <= Dayjs.add_days c (Z.of_nat rounds) ->
  endTime <= Dayjs.add_days c (Z.of_nat (List.length (checkedTimes rounds c endTime))).
Proof.
  revert c. unfold Dayjs.add_days, Dayjs.MILLISECONDS_A_DAY.
  induction rounds as [|n IH]; intros c Hfuel; [exact Hfuel|].
  cbn [checkedTimes]. unfold Dayjs.isBefore.
  destruct (Z.ltb_spec c endTime) as [Hlt | Hge].
  - cbn [List.length]. specialize (IH (Dayjs.add_days c 1)).
    remember (List.length (checkedTimes n (Dayjs.add_days c 1) endTime)) as len.
    unfold Dayjs.add_days, Dayjs.MILLISECONDS_A_DAY in IH. lia.
  - simpl. lia.
Qed.

(** The fuel of [loopDates] is never what stops the loop: the date after
    the last one visited is not before [endTime]. *)
Lemma loop_exits startTime endTime :
  Dayjs.isBefore
    (Dayjs.add_days startTime (Z.of_nat (List.length (loopDates startTime endTime))))
    endTime = false.
Proof.
  unfold Dayjs.isBefore. apply Z.ltb_ge. apply checkedTimes_exit.
  unfold loopRounds, Dayjs.add_days, Dayjs.MILLISECONDS_A_DAY.
  destruct (Z_le_gt_dec 0 ((endTime - startTime) / 86400000 + 1)) as [Hp | Hn].
  - rewrite Z2Nat.id by exact Hp.
    pose proof (Z.mul_succ_div_gt (endTime - startTime) 86400000). lia.
  - rewrite Z2Nat.nonpos by lia.
    pose proof (Z.mul_succ_div_gt (endTime - startTime) 86400000). lia.
Qed.

(** ** The two availability stages *)

Lemma filterFixedHosts_In userAvailability props timeSlots slot :
  In slot (filterFixedHosts userAvailability props timeSlots) <->
  In slot timeSlots /\
  forall h, In h userAvailability -> isFixedHost h = true ->
            hostAvailable props (Slot.time slot) h = true.
Proof.
  unfold filterFixedHosts. rewrite List.filter_In, List.forallb_forall.
  split; intros [Hin Hall]; (split; [exact Hin|]).
  - intros h Hh Hf. apply Hall. apply List.filter_In. auto.
  - intros h Hh. apply List.filter_In in Hh as [Hh Hf]. auto.
Qed.

Lemma looseHostFree_true_iff loose props time slotUserId :
  looseHostFree loose props time slotUserId = true <->
  exists h, List.find (fun a => hostId a =? slotUserId) loose = Some h /\
            hostAvailable props time h = true.
Proof.
  unfold looseHostFree.
  destruct (List.find _ loose) as [h|].
  - split; [intros H; exists h; auto | intros (h' & [= <-] & H); exact H].
  - split; [discriminate | intros (h' & [=] & _)].
Qed.

Lemma narrowLooseHosts_none userAvailability props slots :
  List.filter (fun a => negb (isFixedHost a)) userAvailability = [] ->
  narrowLooseHosts userAvailability props slots = slots.
Proof. unfold narrowLooseHosts. intros ->. reflexivity. Qed.

Lemma narrowLooseHosts_In userAvailability props slots slot' :
  List.filter (fun a => negb (isFixedHost a)) userAvailability <> [] ->
  In slot' (narrowLooseHosts userAvailability props slots) <->
  exists slot ids,
    In slot slots /\ Slot.userIds slot = Some ids /\
    List.filter
      (looseHostFree (List.filter (fun a => negb (isFixedHost a)) userAvailability)
         props (Slot.time slot)) ids <> [] /\
    slot' =
      Slot.mk (Slot.time slot)
        (Some (List.filter
                 (looseHostFree
                    (List.filter (fun a => negb (isFixedHost a)) userAvailability)
                    props (Slot.time slot)) ids)).
Proof.
  intros Hloose. unfold narrowLooseHosts.
  destruct (List.filter _ userAvailability) as [|a loose] eqn:El; [congruence|].
  cbn [List.length Nat.ltb Nat.leb]. rewrite List.filter_In, List.in_map_iff. split.
  - intros ((slot & <- & Hin) & Hids). unfold hasUserIds, narrowSlot in *. cbn in *.
    destruct (Slot.userIds slot) as [ids|] eqn:Eu; cbn in *; [|discriminate].
    exists slot, ids. repeat split; auto.
    destruct (List.filter _ ids); [discriminate | discriminate].
  - intros (slot & ids & Hin & Eu & Hne & ->). split.
    + exists slot. split; [|exact Hin]. unfold narrowSlot. rewrite Eu. reflexivity.
    + unfold hasUserIds. cbn. destruct (List.filter _ ids); [congruence | reflexivity].
Qed.

Lemma narrowLooseHosts_time userAvailability props slots slot' :
  In slot' (narrowLooseHosts userAvailability props slots) ->
  exists slot, In slot slots /\ Slot.time slot' = Slot.time slot.
Proof.
  destruct (List.filter (fun a => negb (isFixedHost a)) userAvailability) eqn:El.
  - rewrite narrowLooseHosts_none by exact El. intros H. exists slot'. auto.
  - rewrite narrowLooseHosts_In by (rewrite El; discriminate).
    intros (slot & ids & Hin & _ & _ & ->). exists slot. auto.
Qed.


(** With a seat entry at the slot's time every host is available,
    whatever is busy. *)
Lemma seat_bypass_free time eventLength currentSeats :
  someSeatAt currentSeats time = true ->
  forall busy, checkIfIsAvailable time busy eventLength currentSeats = true.
Proof. intros H busy. unfold checkIfIsAvailable. rewrite H. reflexivity. Qed.

(** Then the second stage keeps the user ids that belong to a loose
    host. *)
Lemma looseHostFree_seat_bypass loose props time id :
  someSeatAt (AvailabilityCheckProps.currentSeats props) time = true ->
  looseHostFree loose props time id = existsb (fun a => hostId a =? id) loose.
Proof.
  intros H. unfold looseHostFree.
  destruct (List.find _ loose) as [h|] eqn:E.
  - unfold hostAvailable. rewrite (seat_bypass_free _ _ _ H).
    symmetry. apply List.existsb_exists. exists h. apply (List.find_some _ _ E).
  - symmetry. apply not_true_iff_false. intros Hex.
    apply List.existsb_exists in Hex as (a & Hin & Ha).
    rewrite (List.find_none _ _ E a Hin) in Ha. discriminate Ha.
Qed.

Lemma seatOf_seat_bypass currentSeats time :
  someSeatAt currentSeats time = true ->
  exists booking,
    seatOf currentSeats time = Some booking /\ Seat.startTime booking = time.
Proof.
  intros H. unfold seatOf. rewrite H.
  destruct currentSeats as [seats|]; [| discriminate H]. cbn in H.
  destruct (List.find (seatAt time) seats) as [booking|] eqn:E.
  - exists booking. split; [reflexivity|].
    apply List.find_some in E as [_ E]. unfold seatAt in E. lia.
  - apply List.existsb_exists in H as (b & Hin & Hb).
    rewrite (List.find_none _ _ E b Hin) in Hb. discriminate Hb.
Qed.

(** ** Aggregation and the shape of a successful answer *)

Section Answer.

Variable env : Collaborators.t.

Let dayOf (slot : Slot.t) : string :=
  Collaborators.format_YYYY_MM_DD env (Slot.time slot).

Lemma fold_pushSlot_lookup eventType currentSeats slots (r : Slots) key :
  fold_left (pushSlot env eventType currentSeats) slots r !! key =
  match List.filter (fun s => String.eqb (dayOf s) key) slots with
  | [] => r !! key
  | here => Some (default [] (r !! key) ++ map (describeSlot eventType currentSeats) here)
  end.
Proof.
  revert r. induction slots as [|slot slots IH]; intros r; [reflexivity|].
  cbn [fold_left List.filter]. rewrite IH. unfold pushSlot. fold (dayOf slot).
  destruct (String.eqb_spec (dayOf slot) key) as [-> | Hne].
  - rewrite lookup_insert_eq. cbn [from_option id].
    destruct (List.filter _ slots); [reflexivity|].
    rewrite <- List.app_assoc. reflexivity.
  - rewrite lookup_insert_ne by exact Hne. reflexivity.
Qed.

(** The list under a day holds the descriptors of that day's slots, in
    the order of the filtered list. *)
Lemma aggregateSlots_lookup eventType currentSeats slots key l :
  aggregateSlots env eventType currentSeats slots !! key = Some l <->
  l = map (describeSlot eventType currentSeats)
        (List.filter (fun s => String.eqb (dayOf s) key) slots) /\
  l <> [].
Proof.
  unfold aggregateSlots. rewrite fold_pushSlot_lookup, lookup_empty. cbn [from_option id].
  destruct (List.filter _ slots) as [|s here]; cbn.
  - split; [discriminate | intros [-> H]; congruence].
  - split; [intros [= <-]; split; [reflexivity | discriminate] | intros [-> _]; reflexivity].
Qed.

Lemma aggregateSlots_In eventType currentSeats slots key d :
  (exists l, aggregateSlots env eventType currentSeats slots !! key = Some l /\ In d l) <->
  (exists slot, In slot slots /\ dayOf slot = key /\
                d = describeSlot eventType currentSeats slot).
Proof.
  split.
  - intros (l & Hl & Hd). apply aggregateSlots_lookup in Hl as [-> _].
    apply List.in_map_iff in Hd as (slot & <- & Hs).
    apply List.filter_In in Hs as [Hs Hk]. apply String.eqb_eq in Hk.
    exists slot. auto.
  - intros (slot & Hs & Hk & ->).
    assert (In slot (List.filter (fun s => String.eqb (dayOf s) key) slots)) as Hf
      by (apply List.filter_In; split; [exact Hs | apply String.eqb_eq; exact Hk]).
    eexists. split.
    + apply aggregateSlots_lookup. split; [reflexivity|].
      intros E. apply List.map_eq_nil in E. rewrite E in Hf. destruct Hf.
    + apply List.in_map. exact Hf.
Qed.

Lemma getSchedule_Ok input ctx completion r :
  getSchedule env input ctx completion = Ok r <->
  exists eventType startTime endTime,
    getRegularOrDynamicEventType env ctx input = Ok (Some eventType) /\
    Input.startTime input = Some startTime /\
    Input.endTime input = Some endTime /\
    rejectsTimeZone env input = false /\
    r = computedAvailableSlots env input eventType startTime endTime completion.
Proof.
  unfold getSchedule, inTimeZone. split.
  - destruct (getRegularOrDynamicEventType env ctx input) as [[eventType|]|f];
      try discriminate.
    destruct (rejectsTimeZone env input); [discriminate|].
    destruct (Input.startTime input) as [s|], (Input.endTime input) as [e|];
      try discriminate.
    intros [= <-]. exists eventType, s, e. auto.
  - intros (eventType & s & e & -> & -> & -> & -> & ->). reflexivity.
Qed.

End Answer.

(** A successful answer is the aggregate of the request's event type and
    time range. *)
Lemma getSchedule_answer env input ctx completion r eventType startTime endTime :
  getSchedule env input ctx completion = Ok r ->
  getRegularOrDynamicEventType env ctx input = Ok (Some eventType) ->
  Input.startTime input = Some startTime ->
  Input.endTime input = Some endTime ->
  r = computedAvailableSlots env input eventType startTime endTime completion.
Proof.
  intros Hr Het Hs He.
  apply getSchedule_Ok in Hr as (et & s & e & Het' & Hs' & He' & _ & ->).
  congruence.
Qed.

Lemma emits_iff env input eventType startTime endTime completion key d :
  emits (computedAvailableSlots env input eventType startTime endTime completion) key d <->
  exists slot,
    In slot (availableTimeSlotsOf env input eventType startTime endTime completion) /\
    Collaborators.format_YYYY_MM_DD env (Slot.time slot) = key /\
    d = describeSlot eventType
          (currentSeatsOf env input eventType startTime endTime completion) slot.
Proof. unfold emits, computedAvailableSlots. apply aggregateSlots_In. Qed.

(** ** The bounds filter *)

(** C6: in a successful answer, the descriptors listed under a day are
    those of the slots that the two availability stages left and that are
    within the bounds of the event's period ([isTimeWithinBounds] over the
    event's five period fields): the bounds filter runs over the list the
    availability stages produced, nothing is filtered after it, and every
    listed slot is within bounds. *)
Theorem bounds_filter_after_availability
    env input ctx completion r eventType startTime endTime key d :
  getSchedule env input ctx completion = Ok r ->
  getRegularOrDynamicEventType env ctx input = Ok (Some eventType) ->
  Input.startTime input = Some startTime ->
  Input.endTime input = Some endTime ->
  (emits r key d <->
   exists slot,
     In slot (availableAfterHosts env input eventType startTime endTime completion) /\
     isTimeWithinBounds env eventType (Slot.time slot) = true /\
     Collaborators.format_YYYY_MM_DD env (Slot.time slot) = key /\
     d = describeSlot eventType
           (currentSeatsOf env input eventType startTime endTime completion) slot) /\
  (emits r key d -> isTimeWithinBounds env eventType (SlotDescriptor.time d) = true).
Proof.
  intros Hr Het Hs He.
  rewrite (getSchedule_answer _ _ _ _ _ _ _ _ Hr Het Hs He).
  assert (forall slot,
    In slot (availableTimeSlotsOf env input eventType startTime endTime completion) <->
    In slot (availableAfterHosts env input eventType startTime endTime completion) /\
    isTimeWithinBounds env eventType (Slot.time slot) = true) as Hfilter
    by (intros slot; unfold availableTimeSlotsOf; apply List.filter_In).
  split.
  - rewrite emits_iff. split.
    + intros (slot & Hin & Hk & Hd). apply Hfilter in Hin as [Hin Hb].
      exists slot. auto.
    + intros (slot & Hin & Hb & Hk & Hd). exists slot.
      split; [apply Hfilter; auto | auto].
  - rewrite emits_iff. intros (slot & Hin & _ & ->).
    apply Hfilter in Hin as [_ Hb]. exact Hb.
Qed.

Lemma bounds_filter_after_availability_witness :
  let env := Scenario.env [(1, Scenario.free)] in
  let input := Scenario.wholeDay 3 in
  let r := computedAvailableSlots env input Scenario.ranged Scenario.jan1
             (Scenario.jan1 + Dayjs.MILLISECONDS_A_DAY) [0%nat] in
  let d := Scenario.descriptor 10 0 [1] [] in
  (emits r "2024-01-01" d <->
   exists slot,
     In slot (availableAfterHosts env input Scenario.ranged Scenario.jan1
                (Scenario.jan1 + Dayjs.MILLISECONDS_A_DAY) [0%nat]) /\
     isTimeWithinBounds env Scenario.ranged (Slot.time slot) = true /\
     Collaborators.format_YYYY_MM_DD env (Slot.time slot) = "2024-01-01" /\
     d = describeSlot Scenario.ranged
           (currentSeatsOf env input Scenario.ranged Scenario.jan1
              (Scenario.jan1 + Dayjs.MILLISECONDS_A_DAY) [0%nat]) slot) /\
  (emits r "2024-01-01" d ->
   isTimeWithinBounds env Scenario.ranged (SlotDescriptor.time d) = true).
Proof.
  cbv zeta.
  apply (bounds_filter_after_availability
           (Scenario.env [(1, Scenario.free)]) (Scenario.wholeDay 3)
           (Scenario.prisma Scenario.events Scenario.people) [0%nat]);
    reflexivity.
Defined.

(** With the bounds predicate that the specification describes, an
    unlimited period rejects nothing and a fixed range admits the times
    from its start to its end. *)
Lemma SpecModel_unlimited now businessDaysAdd time period :
  PeriodConfig.periodType period = UNLIMITED ->
  SpecModel.isTimeOutOfBounds now businessDaysAdd time period = false.
Proof. unfold SpecModel.isTimeOutOfBounds. intros ->. reflexivity. Qed.

Lemma SpecModel_range now businessDaysAdd time period s e :
  PeriodConfig.periodType period = RANGE ->
  PeriodConfig.periodStartDate period = Some s ->
  PeriodConfig.periodEndDate period = Some e ->
  SpecModel.isTimeOutOfBounds now businessDaysAdd time period = false <->
  s <= time <= e.
Proof.
  unfold SpecModel.isTimeOutOfBounds. intros -> -> ->.
  rewrite orb_false_iff, !Z.ltb_ge. lia.
Qed.

(** The ranged event of the scenario, asked for the whole day, offers the
    slots from 10:00 to 12:00 and no other. *)
Example ranged_day_offers :
  exists r,
    getSchedule (Scenario.env [(1, Scenario.free)]) (Scenario.wholeDay 3)
      (Scenario.prisma Scenario.events Scenario.people) [0%nat] = Ok r /\
    map SlotDescriptor.time (default [] (r !! "2024-01-01")) =
    [Scenario.clock 10 0; Scenario.clock 10 30; Scenario.clock 11 0;
     Scenario.clock 11 30; Scenario.clock 12 0].
Proof. eexists. split; [reflexivity | vm_compute; reflexivity]. Qed.

Ltac show_emits :=
  match goal with
  | |- emits ?r ?key ?d =>
      exists (default [] (r !! key)); split;
      [ vm_compute; reflexivity
      | vm_compute; repeat first [left; reflexivity | right] ]
  end.

(** ** The user names of a descriptor *)

(** C8: in a successful answer every descriptor carries the user names of
    the event's [hosts] list when the event has one, and of its [users]
    list when it has none; the slot and its narrowed [userIds] play no
    part, so all descriptors of the answer carry the same list. *)
Theorem users_from_declared_hosts env input ctx completion r eventType key d key' d' :
  getSchedule env input ctx completion = Ok r ->
  getRegularOrDynamicEventType env ctx input = Ok (Some eventType) ->
  emits r key d ->
  emits r key' d' ->
  (forall hosts, EventType.hosts eventType = Some hosts ->
     SlotDescriptor.users d =
     map (fun host => default EmptyString (User.username (Host.user host))) hosts) /\
  (EventType.hosts eventType = None ->
     SlotDescriptor.users d =
     map (fun user => default EmptyString (User.username user))
       (EventType.users eventType)) /\
  SlotDescriptor.users d = SlotDescriptor.users d'.
Proof.
  intros Hr Het Hd Hd'.
  apply getSchedule_Ok in Hr as (et & s & e & Het' & _ & _ & _ & ->).
  assert (et = eventType) as -> by congruence.
  apply emits_iff in Hd as (slot & _ & _ & ->).
  apply emits_iff in Hd' as (slot' & _ & _ & ->).
  cbn [describeSlot SlotDescriptor.users]. unfold declaredUsernames.
  split; [|split; [|reflexivity]].
  - intros hosts ->. rewrite List.map_map. reflexivity.
  - intros ->. reflexivity.
Qed.

Lemma users_from_declared_hosts_witness :
  let env := Scenario.env [(1, Scenario.free); (2, Scenario.free); (3, Scenario.free)] in
  let d := Scenario.descriptor 9 0 [2; 3] ["alice"; "bob"; "carol"] in
  let d' := Scenario.descriptor 16 30 [2; 3] ["alice"; "bob"; "carol"] in
  (forall hosts, EventType.hosts Scenario.team = Some hosts ->
     SlotDescriptor.users d =
     map (fun host => default EmptyString (User.username (Host.user host))) hosts) /\
  (EventType.hosts Scenario.team = None ->
     SlotDescriptor.users d =
     map (fun user => default EmptyString (User.username user))
       (EventType.users Scenario.team)) /\
  SlotDescriptor.users d = SlotDescriptor.users d'.
Proof.
  cbv zeta.
  apply (users_from_declared_hosts
           (Scenario.env [(1, Scenario.free); (2, Scenario.free); (3, Scenario.free)])
           (Scenario.wholeDay 2)
           (Scenario.prisma Scenario.events Scenario.people) [0; 1; 2]%nat
           (computedAvailableSlots
              (Scenario.env [(1, Scenario.free); (2, Scenario.free); (3, Scenario.free)])
              (Scenario.wholeDay 2) Scenario.team Scenario.jan1
              (Scenario.jan1 + Dayjs.MILLISECONDS_A_DAY) [0; 1; 2]%nat)
           Scenario.team "2024-01-01" _ "2024-01-01" _).
  - reflexivity.
  - reflexivity.
  - show_emits.
  - show_emits.
Defined.

(** ** The range of the request *)

(** C4, amended: every descriptor of a successful answer has the time of
    a slot that the generator returned for one of the dates of the day
    loop, [startTime] plus [k] days for a [k >= 0] that keeps the date
    before [endTime].  The range bounds the dates handed to the generator;
    the time of a slot is whatever the generator returns for its date.
    When the generator keeps the slots of each round on the calendar day
    of the round's date, and [startTime] and [endTime] both fall on the
    start of a day, every descriptor's time lies in
    [[startTime, endTime)]. *)
Theorem slots_come_from_loop_dates
    env input ctx completion r eventType startTime endTime key d :
  getSchedule env input ctx completion = Ok r ->
  getRegularOrDynamicEventType env ctx input = Ok (Some eventType) ->
  Input.startTime input = Some startTime ->
  Input.endTime input = Some endTime ->
  emits r key d ->
  (exists k slot,
     0 <= k /\
     Dayjs.add_days startTime k < endTime /\
     In slot (slotsOfRound env input eventType startTime endTime k) /\
     SlotDescriptor.time d = Slot.time slot) /\
  ((forall k slot,
      0 <= k -> Dayjs.add_days startTime k < endTime ->
      In slot (slotsOfRound env input eventType startTime endTime k) ->
      Dayjs.startOfDay (Dayjs.add_days startTime k) <= Slot.time slot <
      Dayjs.startOfDay (Dayjs.add_days startTime k) + Dayjs.MILLISECONDS_A_DAY) ->
   Dayjs.startOfDay startTime = startTime ->
   Dayjs.startOfDay endTime = endTime ->
   startTime <= SlotDescriptor.time d < endTime).
Proof.
  intros Hr Het Hs He Hd.
  assert (exists k slot,
            0 <= k /\
            Dayjs.add_days startTime k < endTime /\
            In slot (slotsOfRound env input eventType startTime endTime k) /\
            SlotDescriptor.time d = Slot.time slot) as Hround.
  { rewrite (getSchedule_answer _ _ _ _ _ _ _ _ Hr Het Hs He) in Hd.
    apply emits_iff in Hd as (slot & Hin & _ & ->).
    unfold availableTimeSlotsOf in Hin. apply List.filter_In in Hin as [Hin _].
    unfold availableAfterHosts in Hin.
    apply narrowLooseHosts_time in Hin as (slot0 & Hin & Htime).
    apply filterFixedHosts_In in Hin as [Hin _].
    unfold timeSlotsOf, generateTimeSlots in Hin.
    apply List.in_flat_map in Hin as (c & Hc & Hin).
    apply loopDates_In in Hc as (k & Hk & -> & Hlt).
    exists k, slot0. cbn [describeSlot SlotDescriptor.time]. auto. }
  split; [exact Hround|].
  intros Hday Hstart Hend.
  destruct Hround as (k & slot & Hk & Hlt & Hin & ->).
  specialize (Hday k slot Hk Hlt Hin).
  unfold Dayjs.startOfDay, Dayjs.add_days, Dayjs.MILLISECONDS_A_DAY in *.
  rewrite Z.div_add in Hday by lia.
  set (a := startTime / 86400000) in *. set (b := endTime / 86400000) in *.
  lia.
Qed.

Lemma slots_come_from_loop_dates_witness :
  let env := Scenario.env [(1, Scenario.free)] in
  let endTime := Scenario.jan1 + Dayjs.MILLISECONDS_A_DAY in
  (exists k slot,
    0 <= k /\
    Dayjs.add_days Scenario.jan1 k < endTime /\
    In slot
      (slotsOfRound env (Scenario.wholeDay 1) Scenario.personal Scenario.jan1 endTime k) /\
    SlotDescriptor.time (Scenario.descriptor 9 0 [1] []) = Slot.time slot) /\
  Scenario.jan1 <= SlotDescriptor.time (Scenario.descriptor 9 0 [1] []) < endTime.
Proof.
  cbv zeta.
  assert (emits
            (computedAvailableSlots (Scenario.env [(1, Scenario.free)])
               (Scenario.wholeDay 1) Scenario.personal Scenario.jan1
               (Scenario.jan1 + Dayjs.MILLISECONDS_A_DAY) [0%nat])
            "2024-01-01" (Scenario.descriptor 9 0 [1] [])) as Hemits by show_emits.
  destruct (slots_come_from_loop_dates
              (Scenario.env [(1, Scenario.free)]) (Scenario.wholeDay 1)
              (Scenario.prisma Scenario.events Scenario.people) [0%nat]
              _ Scenario.personal Scenario.jan1
              (Scenario.jan1 + Dayjs.MILLISECONDS_A_DAY)
              "2024-01-01" (Scenario.descriptor 9 0 [1] [])
              eq_refl eq_refl eq_refl eq_refl Hemits) as [Hround Hrange].
  split; [exact Hround|].
  apply Hrange; [|reflexivity|reflexivity].
  intros k slot Hk Hlt Hin.
  assert (k = 0) as ->
    by (unfold Dayjs.add_days, Dayjs.MILLISECONDS_A_DAY in Hlt; lia).
  vm_compute in Hin.
  repeat (destruct Hin as [<- | Hin];
          [vm_compute; split; [intros [=] | reflexivity] |]).
  destruct Hin.
Defined.

(** C4 as stated fails: asked for 12:00 to 13:00 of a day on which alice
    works from 9:00 to 17:00, [getSchedule] answers with the slots of the
    whole day, among them 9:00 (before the start of the range) and 16:30
    (after its end). *)
Lemma slots_outside_requested_range :
  exists r,
    getSchedule (Scenario.env [(1, Scenario.free)])
      (Scenario.request (Scenario.clock 12 0) (Scenario.clock 13 0) (Some 1))
      (Scenario.prisma Scenario.events Scenario.people) [0%nat] = Ok r /\
    emits r "2024-01-01" (Scenario.descriptor 9 0 [1] []) /\
    Scenario.clock 9 0 < Scenario.clock 12 0 /\
    emits r "2024-01-01" (Scenario.descriptor 16 30 [1] []) /\
    Scenario.clock 13 0 <= Scenario.clock 16 30.
Proof.
  eexists. split; [reflexivity|].
  split; [show_emits | split; [reflexivity | split; [show_emits | discriminate]]].
Qed.

(** ** The arguments of the generator *)

(** C5: the frequency handed to the generator is the event's
    [slotInterval] when that is set and not zero, and otherwise the event
    length handed to the generator in the same call, which is the
    requested duration when the request names one that is not zero and the
    length of the event type otherwise; the generator runs on these
    arguments for each date of the day loop. *)
Theorem frequency_defaults_to_event_length
    env input eventType workingHours dateOverrides startTime endTime currentCheckedTime :
  let args := timeSlotsArgs input eventType workingHours dateOverrides currentCheckedTime in
  TimeSlotsArgs.frequency args =
    match EventType.slotInterval eventType with
    | Some interval => if interval =? 0 then TimeSlotsArgs.eventLength args else interval
    | None => TimeSlotsArgs.eventLength args
    end /\
  TimeSlotsArgs.eventLength args =
    match Input.duration input with
    | Some duration => if duration =? 0 then EventType.length eventType else duration
    | None => EventType.length eventType
    end /\
  generateTimeSlots env input eventType workingHours dateOverrides startTime endTime =
    flat_map
      (fun date =>
         Collaborators.getTimeSlots env
           (timeSlotsArgs input eventType workingHours dateOverrides date))
      (loopDates startTime endTime).
Proof.
  cbv zeta. unfold timeSlotsArgs, orElse, orElseOpt, truthy. cbn.
  split; [|split; reflexivity].
  destruct (EventType.slotInterval eventType) as [interval|]; cbn.
  - destruct (interval =? 0) eqn:E; cbn; rewrite ?E; reflexivity.
  - reflexivity.
Qed.

(** ** Fixed and loose hosts *)

(** C10: an event with a scheduling type and a non-empty [hosts] list
    takes the hosts with their own [isFixed] flags; any other event takes
    its [users], each fixed exactly when the event has no scheduling type
    or is collective. *)
Theorem scheduleUsers_fixed_flags eventType :
  (forall schedulingType hosts,
     EventType.schedulingType eventType = Some schedulingType ->
     EventType.hosts eventType = Some hosts ->
     hosts <> [] ->
     scheduleUsers eventType = hosts) /\
  (EventType.schedulingType eventType = None \/
   EventType.hosts eventType = None \/
   EventType.hosts eventType = Some [] ->
   map Host.user (scheduleUsers eventType) = EventType.users eventType /\
   forall host, In host (scheduleUsers eventType) ->
     (Host.isFixed host = true <->
      EventType.schedulingType eventType = None \/
      EventType.schedulingType eventType = Some COLLECTIVE)).
Proof.
  unfold scheduleUsers. split.
  - intros st hosts -> -> Hne. destruct hosts as [|h hs]; [congruence|].
    rewrite <- (List.map_id (h :: hs)) at 2. apply List.map_ext.
    intros [fixed user]. reflexivity.
  - intros Hcase.
    assert (match EventType.schedulingType eventType, EventType.hosts eventType with
            | Some _, Some (_ :: _) => False
            | _, _ => True
            end) as Hsel
      by (destruct Hcase as [-> | [-> | ->]];
          [exact I | destruct (EventType.schedulingType eventType); exact I
                   | destruct (EventType.schedulingType eventType); exact I]).
    destruct (EventType.schedulingType eventType) as [[|]|];
      destruct (EventType.hosts eventType) as [[|h hs]|]; try (destruct Hsel; fail);
      (split;
       [ rewrite List.map_map; cbn; apply List.map_id
       | intros host Hin; apply List.in_map_iff in Hin as (u & <- & _); cbn;
         split; [intros; try discriminate; auto | intros [H | H]; try discriminate; auto] ]).
Qed.

(** ** Failures *)





(** Once the event type is resolved, the time zone is looked at first,
    then the two dates. *)
Lemma getSchedule_resolved env input ctx completion eventType :
  getRegularOrDynamicEventType env ctx input = Ok (Some eventType) ->
  getSchedule env input ctx completion =
  if rejectsTimeZone env input then Err RangeError
  else match Input.startTime input, Input.endTime input with
       | Some startTime, Some endTime =>
           Ok (computedAvailableSlots env input eventType startTime endTime completion)
       | _, _ => Err (TRPCError BAD_REQUEST "Invalid time range given.")
       end.
Proof.
  intros Het. unfold getSchedule, inTimeZone. rewrite Het.
  destruct (rejectsTimeZone env input); reflexivity.
Qed.



(** An event type id that the database does not know: NOT_FOUND. *)
Example unknown_event_type_not_found :
  getSchedule (Scenario.env []) (Scenario.wholeDay 99)
    (Scenario.prisma Scenario.events Scenario.people) [] =
  Err (TRPCError NOT_FOUND EmptyString).
Proof. reflexivity. Qed.

(** A dynamic group with a user who does not allow it: UNAUTHORIZED. *)
Example dynamic_booking_disallowed :
  failsWith UNAUTHORIZED
    (getSchedule (Scenario.env []) (Scenario.groupRequest ["alice"; "dave"])
       (Scenario.prisma Scenario.events Scenario.people) []).
Proof. eexists. reflexivity. Qed.

(** A resolved event type and a time zone the runtime does not know: the
    date library throws, also when the end of the range is not a date;
    with a zone it knows, the invalid date is refused with BAD_REQUEST. *)
Example unknown_time_zone_range_error :
  getSchedule (Scenario.env []) (Scenario.wholeDayIn "Mars/Olympus" None 1)
    (Scenario.prisma Scenario.events Scenario.people) [] = Err RangeError /\
  getSchedule (Scenario.env []) (Scenario.wholeDayIn "Europe/London" None 1)
    (Scenario.prisma Scenario.events Scenario.people) [] =
  Err (TRPCError BAD_REQUEST "Invalid time range given.").
Proof. split; reflexivity. Qed.

(** ** The seats of the request *)

Lemma keepCurrentSeats_settled results seats completion :
  fold_left (keepCurrentSeats results) completion (Some seats) = Some seats.
Proof. induction completion as [|i completion IH]; [reflexivity | exact IH]. Qed.

Lemma settleCurrentSeats_none results completion :
  (forall j, In j completion -> seatsAnswered results j = None) ->
  settleCurrentSeats results completion = None.
Proof.
  unfold settleCurrentSeats. induction completion as [|i completion IH]; intros Hnone.
  - reflexivity.
  - cbn [fold_left keepCurrentSeats]. rewrite (Hnone i (or_introl eq_refl)).
    apply IH. intros j Hj. apply Hnone. right. exact Hj.
Qed.

(** The value kept is the first one answered, in the order of completion. *)
Lemma settleCurrentSeats_first results earlier i later seats :
  (forall j, In j earlier -> seatsAnswered results j = None) ->
  seatsAnswered results i = Some seats ->
  settleCurrentSeats results (earlier ++ i :: later) = Some seats.
Proof.
  intros Hnone Hi. unfold settleCurrentSeats. rewrite List.fold_left_app.
  fold (settleCurrentSeats results earlier).
  rewrite (settleCurrentSeats_none results earlier Hnone).
  cbn [fold_left keepCurrentSeats]. rewrite Hi. apply keepCurrentSeats_settled.
Qed.

(** C9, amended: the lookups of the hosts run concurrently, and the
    value kept in [currentSeats] is the first one answered in the order
    in which the lookups resolve ([completion]); a lookup that resolves
    later never replaces it.  That order is the order of the host list
    when the lookups resolve in that order.  The value kept is the one
    handed to the availability check of every host and the one the
    descriptors are annotated from. *)
Theorem currentSeats_first_to_resolve
    env input ctx completion r eventType startTime endTime :
  getSchedule env input ctx completion = Ok r ->
  getRegularOrDynamicEventType env ctx input = Ok (Some eventType) ->
  Input.startTime input = Some startTime ->
  Input.endTime input = Some endTime ->
  let results :=
    map (lookupAvailability env input eventType startTime endTime)
      (scheduleUsers eventType) in
  let currentSeats := currentSeatsOf env input eventType startTime endTime completion in
  let props := AvailabilityCheckProps.mk (EventType.length eventType) currentSeats in
  let userAvailability := userAvailabilityOf env input eventType startTime endTime in
  (forall earlier i later seats,
     completion = earlier ++ i :: later ->
     (forall j, In j earlier -> seatsAnswered results j = None) ->
     seatsAnswered results i = Some seats ->
     currentSeats = Some seats) /\
  ((forall j, In j completion -> seatsAnswered results j = None) ->
   currentSeats = None) /\
  (completion = seq 0 (List.length results) ->
   forall i seats,
     seatsAnswered results i = Some seats ->
     (forall j, (j < i)%nat -> seatsAnswered results j = None) ->
     currentSeats = Some seats) /\
  r = aggregateSlots env eventType currentSeats
        (List.filter (fun slot => isTimeWithinBounds env eventType (Slot.time slot))
           (narrowLooseHosts userAvailability props
              (filterFixedHosts userAvailability props
                 (timeSlotsOf env input eventType startTime endTime)))).
Proof.
  intros Hr Het Hs He. cbv zeta. unfold currentSeatsOf.
  split; [|split; [|split]].
  - intros earlier i later seats -> Hnone Hi.
    apply settleCurrentSeats_first; assumption.
  - apply settleCurrentSeats_none.
  - intros -> i seats Hi Hnone.
    set (results := map (lookupAvailability env input eventType startTime endTime)
                      (scheduleUsers eventType)) in *.
    assert (i < List.length results)%nat as Hlt.
    { apply List.nth_error_Some. intros E. unfold seatsAnswered in Hi.
      rewrite E in Hi. discriminate. }
    replace (List.length results) with (i + S (List.length results - S i))%nat by lia.
    rewrite List.seq_app. cbn [seq Nat.add].
    apply settleCurrentSeats_first; [|exact Hi].
    intros j Hj. apply List.in_seq in Hj. apply Hnone. lia.
  - rewrite (getSchedule_answer _ _ _ _ _ _ _ _ Hr Het Hs He). reflexivity.
Qed.

Lemma currentSeats_first_to_resolve_witness :
  currentSeatsOf
    (Scenario.env [(1, Scenario.freeWith Scenario.seatsA);
                   (2, Scenario.freeWith Scenario.seatsB)])
    (Scenario.wholeDay 4) Scenario.seated Scenario.jan1
    (Scenario.jan1 + Dayjs.MILLISECONDS_A_DAY) [0; 1]%nat
  = Some Scenario.seatsA.
Proof.
  exact (proj1
           (currentSeats_first_to_resolve
              (Scenario.env [(1, Scenario.freeWith Scenario.seatsA);
                             (2, Scenario.freeWith Scenario.seatsB)])
              (Scenario.wholeDay 4)
              (Scenario.prisma Scenario.events Scenario.people) [0; 1]%nat
              _ Scenario.seated Scenario.jan1
              (Scenario.jan1 + Dayjs.MILLISECONDS_A_DAY)
              eq_refl eq_refl eq_refl eq_refl)
           [] 0%nat [1%nat] Scenario.seatsA eq_refl
           (fun j (H : In j []) => match H with end) eq_refl).
Defined.

(** C9 as stated fails: alice comes first in the host list and her lookup
    answers the seats [seatsA], bob's answers [seatsB]; when bob's lookup
    resolves first, [seatsB] is kept, and the slot at 10:00 is annotated
    from it. *)
Lemma currentSeats_not_first_in_host_order :
  let env := Scenario.env [(1, Scenario.freeWith Scenario.seatsA);
                           (2, Scenario.freeWith Scenario.seatsB)] in
  let input := Scenario.wholeDay 4 in
  let endTime := Scenario.jan1 + Dayjs.MILLISECONDS_A_DAY in
  map Host.user (scheduleUsers Scenario.seated) = [Scenario.alice; Scenario.bob] /\
  map AvailabilityResult.currentSeats
    (map (lookupAvailability env input Scenario.seated Scenario.jan1 endTime)
       (scheduleUsers Scenario.seated))
  = [Some Scenario.seatsA; Some Scenario.seatsB] /\
  currentSeatsOf env input Scenario.seated Scenario.jan1 endTime [1; 0]%nat
  = Some Scenario.seatsB /\
  exists r,
    getSchedule env input (Scenario.prisma Scenario.events Scenario.people) [1; 0]%nat
    = Ok r /\
    emits r "2024-01-01"
      (SlotDescriptor.mk (Some [1; 2]) (Scenario.clock 10 0) ["alice"; "bob"]
         (Some 2) (Some "booking-B")).
Proof.
  cbv zeta. repeat split; try reflexivity.
  eexists. split; [reflexivity | show_emits].
Qed.

(** ** The scenarios of the specification *)

(** Working hours from 9:00 to 17:00, thirty minutes, nothing busy:
    sixteen slots, the first at 9:00 and the last at 16:30. *)
Example whole_day_sixteen_slots :
  Scenario.timesOn "2024-01-01"
    (getSchedule (Scenario.env [(1, Scenario.free)]) (Scenario.wholeDay 1)
       (Scenario.prisma Scenario.events Scenario.people) [0%nat])
  = map (fun k => Scenario.clock 9 0 + Z.of_nat k * 1800000) (seq 0 16).
Proof. vm_compute. reflexivity. Qed.

(** Two fixed hosts, one of them busy from 10:00 to 10:30: no slot at
    10:00, the fifteen others stay. *)
Example fixed_hosts_all_needed :
  let times :=
    Scenario.timesOn "2024-01-01"
      (getSchedule
         (Scenario.env
            [(1, Scenario.busyBetween (Scenario.clock 10 0) (Scenario.clock 10 30) None);
             (2, Scenario.free)])
         (Scenario.wholeDay 4)
         (Scenario.prisma Scenario.events Scenario.people) [0; 1]%nat) in
  existsb (Z.eqb (Scenario.clock 10 0)) times = false /\ List.length times = 15%nat.
Proof. vm_compute. split; reflexivity. Qed.

(** A fixed host who is free and two loose hosts of whom bob is busy
    from 10:00 to 10:30: the slot at 10:00 is offered with carol alone. *)
Example loose_hosts_narrowed :
  exists r,
    getSchedule
      (Scenario.env
         [(1, Scenario.free);
          (2, Scenario.busyBetween (Scenario.clock 10 0) (Scenario.clock 10 30) None);
          (3, Scenario.free)])
      (Scenario.wholeDay 2)
      (Scenario.prisma Scenario.events Scenario.people) [0; 1; 2]%nat = Ok r /\
    emits r "2024-01-01" (Scenario.descriptor 10 0 [3] ["alice"; "bob"; "carol"]) /\
    emits r "2024-01-01" (Scenario.descriptor 10 30 [2; 3] ["alice"; "bob"; "carol"]).
Proof. eexists. split; [reflexivity | split; show_emits]. Qed.

(** A seated event whose hosts are busy all day and a booking at 10:00
    with three attendees: the slot at 10:00 is the only one offered, and it
    is annotated with the booking. *)
Example seat_bypass_annotated :
  let seats := [Seat.mk "booking-1" (Scenario.clock 10 0) 3] in
  let allDay :=
    Scenario.busyBetween (Scenario.clock 0 0) (Scenario.clock 24 0) (Some seats) in
  exists r,
    getSchedule (Scenario.env [(1, allDay); (2, allDay)]) (Scenario.wholeDay 4)
      (Scenario.prisma Scenario.events Scenario.people) [0; 1]%nat = Ok r /\
    r !! "2024-01-01" =
    Some [SlotDescriptor.mk (Some [1; 2]) (Scenario.clock 10 0) ["alice"; "bob"]
            (Some 3) (Some "booking-1")].
Proof. cbv zeta. eexists. split; [reflexivity | vm_compute; reflexivity]. Qed.

(** ** The seats and the emission of a slot *)

(** C3, amended: when [currentSeats] has an entry whose start is the time
    of a generated slot, [checkIfIsAvailable] answers true for that time
    whatever the busy intervals are, so no busy interval of a host removes
    the slot.  It is emitted, annotated with the attendees and the booking
    of the first such entry, exactly when its time is within the bounds of
    the event's period and, if the event has a loose host, its [userIds]
    name a loose host; its [userIds] are then those that belong to a loose
    host when there is one, and unchanged when there is none. *)
Theorem seat_bypass_emitted
    env input ctx completion r eventType startTime endTime slot :
  getSchedule env input ctx completion = Ok r ->
  getRegularOrDynamicEventType env ctx input = Ok (Some eventType) ->
  Input.startTime input = Some startTime ->
  Input.endTime input = Some endTime ->
  In slot (timeSlotsOf env input eventType startTime endTime) ->
  let currentSeats := currentSeatsOf env input eventType startTime endTime completion in
  let loose :=
    List.filter (fun a => negb (isFixedHost a))
      (userAvailabilityOf env input eventType startTime endTime) in
  let kept :=
    match loose with
    | [] => slot
    | _ :: _ =>
        Slot.mk (Slot.time slot)
          (option_map (List.filter (fun id => existsb (fun a => hostId a =? id) loose))
             (Slot.userIds slot))
    end in
  let d := describeSlot eventType currentSeats kept in
  someSeatAt currentSeats (Slot.time slot) = true ->
  (forall time busy eventLength seats,
     someSeatAt seats time = true ->
     checkIfIsAvailable time busy eventLength seats = true) /\
  (forall busy,
     checkIfIsAvailable (Slot.time slot) busy (EventType.length eventType) currentSeats
     = true) /\
  (emits r (Collaborators.format_YYYY_MM_DD env (Slot.time slot)) d <->
   isTimeWithinBounds env eventType (Slot.time slot) = true /\
   (loose <> [] -> hasUserIds kept = true)) /\
  SlotDescriptor.time d = Slot.time slot /\
  exists booking,
    seatOf currentSeats (Slot.time slot) = Some booking /\
    Seat.startTime booking = Slot.time slot /\
    SlotDescriptor.attendees d = Some (Seat.attendees booking) /\
    SlotDescriptor.bookingUid d = Some (Seat.uid booking).
Proof.
  intros Hr Het Hs He Hslot. cbv zeta. intros Hseat.
  rewrite (getSchedule_answer _ _ _ _ _ _ _ _ Hr Het Hs He).
  set (currentSeats := currentSeatsOf env input eventType startTime endTime completion) in *.
  set (userAvailability := userAvailabilityOf env input eventType startTime endTime).
  set (loose := List.filter (fun a => negb (isFixedHost a)) userAvailability).
  set (props := availabilityCheckPropsOf env input eventType startTime endTime completion).
  assert (forall busy,
            checkIfIsAvailable (Slot.time slot) busy (EventType.length eventType) currentSeats
            = true) as Hfree by (apply seat_bypass_free; exact Hseat).
  assert (In slot (filterFixedHosts userAvailability props
                     (timeSlotsOf env input eventType startTime endTime))) as Hfixed.
  { apply filterFixedHosts_In. split; [exact Hslot|]. intros h _ _. apply Hfree. }
  assert (Slot.time
            match loose with
            | [] => slot
            | _ :: _ =>
                Slot.mk (Slot.time slot)
                  (option_map
                     (List.filter (fun id => existsb (fun a => hostId a =? id) loose))
                     (Slot.userIds slot))
            end = Slot.time slot) as Htime by (destruct loose; reflexivity).
  set (kept0 :=
         match loose with
         | [] => slot
         | _ :: _ =>
             Slot.mk (Slot.time slot)
               (option_map
                  (List.filter (fun id => existsb (fun a => hostId a =? id) loose))
                  (Slot.userIds slot))
         end) in *.
  split; [intros time busy eventLength seats H; apply seat_bypass_free; exact H|].
  split; [exact Hfree|]. split; [| split].
  - rewrite emits_iff. unfold availableTimeSlotsOf, availableAfterHosts.
    fold userAvailability. fold props. split.
    + intros (slot' & Hin & _ & Hd).
      assert (slot' = kept0) as ->.
      { unfold describeSlot in Hd.
        assert (Slot.userIds slot' = Slot.userIds kept0 /\ Slot.time slot' = Slot.time kept0)
          as [Hu Ht] by (split; congruence).
        destruct slot' as [time' ids'], kept0 as [time0 ids0]. cbn in Hu, Ht.
        congruence. }
      apply List.filter_In in Hin as [Hin Hb]. rewrite Htime in Hb.
      split; [exact Hb|]. intros Hloose.
      apply narrowLooseHosts_In in Hin as (s & ids & _ & _ & Hne & Heq);
        [| exact Hloose].
      rewrite Heq. unfold hasUserIds. cbn.
      destruct (List.filter _ ids); [congruence | reflexivity].
    + intros (Hb & Hids).
      exists kept0.
      split; [| split; [rewrite Htime; reflexivity | reflexivity]].
      apply List.filter_In. rewrite Htime. split; [| exact Hb].
      subst kept0. destruct loose as [|a loose'] eqn:El.
      * rewrite narrowLooseHosts_none by exact El. exact Hfixed.
      * specialize (Hids ltac:(discriminate)).
        unfold narrowLooseHosts. fold userAvailability. fold loose. rewrite El.
        cbn [List.length Nat.ltb Nat.leb]. apply List.filter_In. split; [| exact Hids].
        apply List.in_map_iff. exists slot. split; [| exact Hfixed].
        unfold narrowSlot. f_equal. destruct (Slot.userIds slot) as [ids|]; [| reflexivity].
        cbn. f_equal. apply List.filter_ext. intros id.
        apply looseHostFree_seat_bypass. exact Hseat.
  - exact Htime.
  - destruct (seatOf_seat_bypass _ _ Hseat) as (booking & Hseatof & Hstart).
    exists booking. unfold describeSlot. cbn. rewrite Htime, Hseatof. auto.
Qed.

Lemma seat_bypass_emitted_witness :
  let seats := [Seat.mk "booking-1" (Scenario.clock 10 0) 3] in
  let allDay :=
    Scenario.busyBetween (Scenario.clock 0 0) (Scenario.clock 24 0) (Some seats) in
  let env := Scenario.env [(1, allDay); (2, allDay)] in
  let r := computedAvailableSlots env (Scenario.wholeDay 4) Scenario.seated Scenario.jan1
             (Scenario.jan1 + Dayjs.MILLISECONDS_A_DAY) [0; 1]%nat in
  emits r "2024-01-01"
    (SlotDescriptor.mk (Some [1; 2]) (Scenario.clock 10 0) ["alice"; "bob"]
       (Some 3) (Some "booking-1")).
Proof.
  cbv zeta.
  apply (proj2 (proj1 (proj2 (proj2
           (seat_bypass_emitted
              (Scenario.env
                 [(1, Scenario.busyBetween (Scenario.clock 0 0) (Scenario.clock 24 0)
                        (Some [Seat.mk "booking-1" (Scenario.clock 10 0) 3]));
                  (2, Scenario.busyBetween (Scenario.clock 0 0) (Scenario.clock 24 0)
                        (Some [Seat.mk "booking-1" (Scenario.clock 10 0) 3]))])
              (Scenario.wholeDay 4)
              (Scenario.prisma Scenario.events Scenario.people) [0; 1]%nat
              _ Scenario.seated Scenario.jan1
              (Scenario.jan1 + Dayjs.MILLISECONDS_A_DAY)
              (Slot.mk (Scenario.clock 10 0) (Some [1; 2]))
              eq_refl eq_refl eq_refl eq_refl
              ltac:(vm_compute; tauto) eq_refl))))).
  split; [reflexivity | intros H; exfalso; apply H; reflexivity].
Defined.

(** C3 as stated fails: alice is busy from 13:30 to 15:00 and a booking
    with three attendees starts at 14:00, but the event may be booked
    from 10:00 to 12:00 only.  The slot at 14:00 is generated and
    [checkIfIsAvailable] answers true for it, and it is not emitted. *)
Lemma seat_matched_slot_not_emitted :
  let t := Scenario.clock 14 0 in
  let seats := [Seat.mk "booking-2" t 3] in
  let busy := [EventBusyDate.mk (Scenario.clock 13 30) (Scenario.clock 15 0)] in
  let env :=
    Scenario.env
      [(1, Scenario.busyBetween (Scenario.clock 13 30) (Scenario.clock 15 0) (Some seats))] in
  let input := Scenario.wholeDay 5 in
  let ctx := Scenario.prisma [Scenario.seatedRanged] Scenario.people in
  let nextDay := Scenario.jan1 + Dayjs.MILLISECONDS_A_DAY in
  In (Slot.mk t (Some [1]))
    (timeSlotsOf env input Scenario.seatedRanged Scenario.jan1 nextDay) /\
  currentSeatsOf env input Scenario.seatedRanged Scenario.jan1 nextDay [0%nat] = Some seats /\
  checkIfIsAvailable t busy 30 (Some seats) = true /\
  checkIfIsAvailable t busy 30 None = false /\
  exists r,
    getSchedule env input ctx [0%nat] = Ok r /\
    r !! "2024-01-01" <> None /\
    forall key d, emits r key d -> SlotDescriptor.time d <> t.
Proof.
  cbv zeta. split; [vm_compute; tauto|]. split; [reflexivity|].
  split; [reflexivity|]. split; [reflexivity|].
  eexists. split; [reflexivity|]. split; [vm_compute; discriminate|].
  intros key d Hd. apply emits_iff in Hd as (slot & Hin & _ & ->).
  vm_compute in Hin.
  repeat (destruct Hin as [<- | Hin]; [vm_compute; intros [=] |]).
  destruct Hin.
Qed.

(** ** Further properties of [getSchedule] *)

(** X1: the day loop visits [startTime] plus [k] days for exactly the
    [k >= 0] that keep the date before [endTime], and it stops because the
    next date is not before [endTime]. *)
Theorem day_loop_visits startTime endTime :
  (forall date,
     In date (loopDates startTime endTime) <->
     exists k, 0 <= k /\ date = Dayjs.add_days startTime k /\ date < endTime) /\
  Dayjs.isBefore
    (Dayjs.add_days startTime (Z.of_nat (List.length (loopDates startTime endTime))))
    endTime = false.
Proof. split; [intros date; apply loopDates_In | apply loop_exits]. Qed.

(** X2: the list under a day holds the descriptors of the slots of that
    day in the order in which the filtered slots come, and a day without a
    slot has no entry. *)
Theorem day_lists_keep_slot_order env eventType currentSeats slots key l :
  aggregateSlots env eventType currentSeats slots !! key = Some l <->
  l = map (describeSlot eventType currentSeats)
        (List.filter
           (fun slot =>
              String.eqb (Collaborators.format_YYYY_MM_DD env (Slot.time slot)) key)
           slots) /\
  l <> [].
Proof. apply aggregateSlots_lookup. Qed.

Lemma find_of_existsb {A} (f : A -> bool) (l : list A) :
  existsb f l = match List.find f l with Some _ => true | None => false end.
Proof.
  induction l as [|a l IH]; [reflexivity|].
  cbn. destruct (f a); [reflexivity | exact IH].
Qed.

(** X3: a descriptor is annotated with [attendees] and [bookingUid]
    exactly when [currentSeats] has an entry at the slot's time, and both
    come from the first such entry. *)
Theorem seat_annotation eventType currentSeats slot :
  let d := describeSlot eventType currentSeats slot in
  let entry :=
    match currentSeats with
    | Some seats => List.find (seatAt (Slot.time slot)) seats
    | None => None
    end in
  SlotDescriptor.attendees d = option_map Seat.attendees entry /\
  SlotDescriptor.bookingUid d = option_map Seat.uid entry /\
  (SlotDescriptor.attendees d <> None <->
   someSeatAt currentSeats (Slot.time slot) = true) /\
  (SlotDescriptor.bookingUid d <> None <->
   someSeatAt currentSeats (Slot.time slot) = true).
Proof.
  cbv zeta. unfold describeSlot, seatOf, someSeatAt. cbn.
  destruct currentSeats as [seats|]; cbn.
  - rewrite find_of_existsb.
    destruct (List.find (seatAt (Slot.time slot)) seats); cbn;
      repeat split; congruence.
  - repeat split; congruence.
Qed.

(** ** Further properties of [checkIfIsAvailable] *)

Lemma forallb_Permutation {A} (f : A -> bool) (l l' : list A) :
  Permutation l l' -> forallb f l = forallb f l'.
Proof.
  induction 1 as [|x l l' _ IH|x y l|l l' l'' _ IH1 _ IH2]; cbn.
  - reflexivity.
  - rewrite IH. reflexivity.
  - destruct (f x), (f y); reflexivity.
  - rewrite IH1. exact IH2.
Qed.

(** X5: with nothing busy the slot is available; the busy intervals are
    checked one by one, so the answer for two lists put together is the
    conjunction of the answers for each, and the order of the intervals
    does not matter. *)
Theorem checkIfIsAvailable_busy_lists time eventLength currentSeats :
  checkIfIsAvailable time [] eventLength currentSeats = true /\
  (forall busy1 busy2,
     checkIfIsAvailable time (busy1 ++ busy2) eventLength currentSeats =
     checkIfIsAvailable time busy1 eventLength currentSeats &&
     checkIfIsAvailable time busy2 eventLength currentSeats) /\
  (forall busy busy',
     Permutation busy busy' ->
     checkIfIsAvailable time busy eventLength currentSeats =
     checkIfIsAvailable time busy' eventLength currentSeats).
Proof.
  unfold checkIfIsAvailable.
  destruct (someSeatAt currentSeats time); repeat split; auto.
  - intros busy1 busy2. apply List.forallb_app.
  - intros busy busy'. apply forallb_Permutation.
Qed.

(** X6: of the five tests that follow the guard in the callback of
    [busy.every], the third (the first one again) and the fourth (the
    slot end strictly inside the busy interval) never decide: the callback
    answers as the guard, the first test (slot start), the second (slot
    end) and the fifth (busy start inside the slot) alone would. *)
Theorem busyTimeAllows_three_tests time eventLength busyTime :
  let slotEndTime := Dayjs.add_minutes time eventLength in
  let startTime := EventBusyDate.start busyTime in
  let endTime := EventBusyDate.end_ busyTime in
  busyTimeAllows time eventLength busyTime =
  (Dayjs.isBefore endTime time || Dayjs.isAfter startTime slotEndTime) ||
  negb (Dayjs.isBetween time startTime endTime Dayjs.Incl_Excl ||
        Dayjs.isBetween slotEndTime startTime endTime Dayjs.Excl_Incl ||
        Dayjs.isBetween startTime time slotEndTime Dayjs.Excl_Excl).
Proof.
  destruct busyTime as [s e]. cbv zeta. dayjs_unfold.
  bool_cases; try reflexivity; lia.
Qed.

Lemma ltb_shift a b delta : (a + delta <? b + delta) = (a <? b).
Proof. destruct (Z.ltb_spec a b), (Z.ltb_spec (a + delta) (b + delta)); lia || reflexivity. Qed.

Lemma busyTimeAllows_shift delta time eventLength b :
  busyTimeAllows (time + delta) eventLength (shiftBusy delta b) =
  busyTimeAllows time eventLength b.
Proof.
  destruct b as [s e]. unfold shiftBusy. dayjs_unfold.
  replace (time + delta + eventLength * 60000)
    with (time + eventLength * 60000 + delta) by lia.
  rewrite !ltb_shift. reflexivity.
Qed.

Lemma someSeatAt_shift delta time currentSeats :
  someSeatAt (option_map (map (shiftSeat delta)) currentSeats) (time + delta) =
  someSeatAt currentSeats time.
Proof.
  destruct currentSeats as [seats|]; [|reflexivity]. cbn.
  induction seats as [|s seats IH]; [reflexivity|].
  cbn. rewrite IH. f_equal. unfold seatAt. cbn.
  destruct (Z.eqb_spec (Seat.startTime s + delta) (time + delta)),
    (Z.eqb_spec (Seat.startTime s) time); lia || reflexivity.
Qed.

(** X7: the answer depends on the times relative to one another only:
    moving the slot, the busy intervals and the seat entries by the same
    amount of time leaves it unchanged. *)
Theorem checkIfIsAvailable_shift delta time busy eventLength currentSeats :
  checkIfIsAvailable (time + delta) (map (shiftBusy delta) busy) eventLength
    (option_map (map (shiftSeat delta)) currentSeats) =
  checkIfIsAvailable time busy eventLength currentSeats.
Proof.
  unfold checkIfIsAvailable. rewrite someSeatAt_shift.
  destruct (someSeatAt currentSeats time); [reflexivity|].
  induction busy as [|b busy IH]; [reflexivity|].
  cbn. rewrite busyTimeAllows_shift, IH. reflexivity.
Qed.

(** ** Further properties of the pipeline *)

Lemma checkedTimes_map rounds c endTime :
  checkedTimes rounds c endTime =
  map (fun k => Dayjs.add_days c (Z.of_nat k))
    (seq 0 (Nat.min rounds
              (Z.to_nat ((endTime - c + (Dayjs.MILLISECONDS_A_DAY - 1))
                         / Dayjs.MILLISECONDS_A_DAY)))).
Proof.
  revert c. induction rounds as [|n IH]; intros c; [reflexivity|].
  cbn [checkedTimes]. unfold Dayjs.isBefore.
  destruct (Z.ltb_spec c endTime) as [Hlt | Hge].
  - rewrite IH.
    replace (Z.to_nat ((endTime - c + (Dayjs.MILLISECONDS_A_DAY - 1))
                       / Dayjs.MILLISECONDS_A_DAY))
      with (S (Z.to_nat ((endTime - Dayjs.add_days c 1 + (Dayjs.MILLISECONDS_A_DAY - 1))
                         / Dayjs.MILLISECONDS_A_DAY))).
    + cbn [Nat.min seq map]. f_equal.
      * unfold Dayjs.add_days. lia.
      * rewrite <- List.seq_shift, List.map_map. apply List.map_ext.
        intros k. unfold Dayjs.add_days. lia.
    + unfold Dayjs.add_days, Dayjs.MILLISECONDS_A_DAY.
      replace (endTime - c + (86400000 - 1))
        with (endTime - (c + 1 * 86400000) + (86400000 - 1) + 1 * 86400000) by lia.
      rewrite Z.div_add by lia.
      assert (0 <= (endTime - (c + 1 * 86400000) + (86400000 - 1)) / 86400000)
        by (apply Z.div_pos; lia).
      lia.
  - replace (Z.to_nat ((endTime - c + (Dayjs.MILLISECONDS_A_DAY - 1))
                       / Dayjs.MILLISECONDS_A_DAY)) with 0%nat.
    + rewrite Nat.min_0_r. reflexivity.
    + unfold Dayjs.MILLISECONDS_A_DAY.
      assert ((endTime - c + (86400000 - 1)) / 86400000 <= 0); [|lia].
      apply Z.lt_succ_r. apply Z.div_lt_upper_bound; lia.
Qed.

(** X9: the day loop makes one round for every day of the range, a
    started day counting as a whole one, in the order of the dates:
    [startTime], one day later, and so on; a range that ends at or
    before its start gets no round. *)
Theorem day_loop_rounds startTime endTime :
  loopDates startTime endTime =
  map (fun k => Dayjs.add_days startTime (Z.of_nat k))
    (seq 0 (Z.to_nat ((endTime - startTime + (Dayjs.MILLISECONDS_A_DAY - 1))
                      / Dayjs.MILLISECONDS_A_DAY))).
Proof.
  unfold loopDates. rewrite checkedTimes_map. f_equal. f_equal.
  apply Nat.min_r. unfold loopRounds, Dayjs.MILLISECONDS_A_DAY.
  assert ((endTime - startTime + (86400000 - 1)) / 86400000
          <= (endTime - startTime) / 86400000 + 1); [|lia].
  replace ((endTime - startTime) / 86400000 + 1)
    with ((endTime - startTime + 1 * 86400000) / 86400000)
    by (rewrite Z.div_add by lia; reflexivity).
  apply Z.div_le_mono; lia.
Qed.

Lemma loopDates_empty startTime endTime :
  endTime <= startTime -> loopDates startTime endTime = [].
Proof.
  intros Hle. destruct (loopDates startTime endTime) as [|x l] eqn:E; [reflexivity|].
  assert (In x (loopDates startTime endTime)) as Hin by (rewrite E; left; reflexivity).
  apply loopDates_In in Hin as (k & Hk & -> & Hlt).
  unfold Dayjs.add_days, Dayjs.MILLISECONDS_A_DAY in Hlt. lia.
Qed.

Lemma narrowLooseHosts_nil userAvailability props :
  narrowLooseHosts userAvailability props [] = [].
Proof. unfold narrowLooseHosts. destruct (_ <? _)%nat; reflexivity. Qed.

(** X8: a request whose event type is resolved, whose time zone the date
    library takes and whose range ends at or before its start is answered,
    not refused: the generator is not called and the answer has no day. *)
Theorem empty_range_no_slots env input ctx completion eventType startTime endTime :
  getRegularOrDynamicEventType env ctx input = Ok (Some eventType) ->
  rejectsTimeZone env input = false ->
  Input.startTime input = Some startTime ->
  Input.endTime input = Some endTime ->
  endTime <= startTime ->
  timeSlotsOf env input eventType startTime endTime = [] /\
  getSchedule env input ctx completion = Ok (∅ : Slots).
Proof.
  intros Het Hzone Hs He Hle.
  assert (timeSlotsOf env input eventType startTime endTime = []) as Hnone.
  { unfold timeSlotsOf, generateTimeSlots.
    rewrite (loopDates_empty _ _ Hle). reflexivity. }
  split; [exact Hnone|].
  rewrite (getSchedule_resolved env input ctx completion eventType Het), Hzone, Hs, He.
  f_equal.
  unfold computedAvailableSlots, availableTimeSlotsOf, availableAfterHosts.
  rewrite Hnone. unfold filterFixedHosts. cbn [List.filter].
  rewrite narrowLooseHosts_nil. reflexivity.
Qed.

Lemma empty_range_no_slots_witness :
  getSchedule (Scenario.env [(1, Scenario.free)])
    (Scenario.request (Scenario.clock 13 0) (Scenario.clock 12 0) (Some 1))
    (Scenario.prisma Scenario.events Scenario.people) [0%nat] = Ok (∅ : Slots).
Proof.
  apply (empty_range_no_slots (Scenario.env [(1, Scenario.free)])
           (Scenario.request (Scenario.clock 13 0) (Scenario.clock 12 0) (Some 1))
           (Scenario.prisma Scenario.events Scenario.people) [0%nat]
           Scenario.personal (Scenario.clock 13 0) (Scenario.clock 12 0)).
  - reflexivity.
  - reflexivity.
  - reflexivity.
  - reflexivity.
  - vm_compute. intros [=].
Defined.

(** X10: the user ids of a descriptor come from the generator and are
    never added to: every descriptor of a successful answer has the time
    of a generated slot, and its [userIds] are those of that slot when the
    event has no loose host, and otherwise a non-empty selection of them,
    each the id of a loose host. *)
Theorem narrowing_never_adds_user
    env input ctx completion r eventType startTime endTime key d :
  getSchedule env input ctx completion = Ok r ->
  getRegularOrDynamicEventType env ctx input = Ok (Some eventType) ->
  Input.startTime input = Some startTime ->
  Input.endTime input = Some endTime ->
  emits r key d ->
  exists slot,
    In slot (timeSlotsOf env input eventType startTime endTime) /\
    SlotDescriptor.time d = Slot.time slot /\
    ((forall host, In host (scheduleUsers eventType) -> Host.isFixed host = true) ->
     SlotDescriptor.userIds d = Slot.userIds slot) /\
    ((exists host, In host (scheduleUsers eventType) /\ Host.isFixed host = false) ->
     exists ids ids',
       Slot.userIds slot = Some ids /\
       SlotDescriptor.userIds d = Some ids' /\
       ids' <> [] /\
       forall id, In id ids' ->
         In id ids /\
         exists host, In host (scheduleUsers eventType) /\
                      Host.isFixed host = false /\ User.id (Host.user host) = id).
Proof.
  intros Hr Het Hs He Hd.
  rewrite (getSchedule_answer _ _ _ _ _ _ _ _ Hr Het Hs He) in Hd.
  apply emits_iff in Hd as (slot' & Hin & _ & ->).
  unfold availableTimeSlotsOf in Hin. apply List.filter_In in Hin as [Hin _].
  unfold availableAfterHosts in Hin.
  set (ua := userAvailabilityOf env input eventType startTime endTime) in *.
  set (props := availabilityCheckPropsOf env input eventType startTime endTime completion)
    in *.
  assert (forall h, In h ua ->
            In (UserAvailability.user h) (scheduleUsers eventType)) as Hua.
  { intros h Hh. unfold ua, userAvailabilityOf in Hh.
    apply List.in_map_iff in Hh as (host & <- & Hhost). exact Hhost. }
  assert (forall host, In host (scheduleUsers eventType) ->
            exists h, In h ua /\ UserAvailability.user h = host) as Hhosts.
  { intros host Hhost. eexists. split.
    - unfold ua, userAvailabilityOf. apply List.in_map. exact Hhost.
    - reflexivity. }
  destruct (List.filter (fun a => negb (isFixedHost a)) ua) as [|a loose] eqn:El.
  - rewrite narrowLooseHosts_none in Hin by exact El.
    apply filterFixedHosts_In in Hin as [Hin _].
    exists slot'. split; [exact Hin|]. split; [reflexivity|]. split.
    + intros _. reflexivity.
    + intros (host & Hhost & Hloose). exfalso.
      destruct (Hhosts host Hhost) as (h & Hh & Huser).
      assert (In h (List.filter (fun a => negb (isFixedHost a)) ua)) as Hf.
      { apply List.filter_In. split; [exact Hh|].
        unfold isFixedHost. rewrite Huser, Hloose. reflexivity. }
      rewrite El in Hf. destruct Hf.
  - apply narrowLooseHosts_In in Hin; [|rewrite El; discriminate].
    destruct Hin as (slot & ids & Hin & Hids & Hne & ->).
    apply filterFixedHosts_In in Hin as [Hin _].
    exists slot. split; [exact Hin|]. split; [reflexivity|]. split.
    + intros Hfixed. exfalso.
      assert (In a (List.filter (fun a => negb (isFixedHost a)) ua)) as Hf
        by (rewrite El; left; reflexivity).
      apply List.filter_In in Hf as [Ha Hl].
      unfold isFixedHost in Hl. rewrite (Hfixed _ (Hua a Ha)) in Hl. discriminate.
    + intros _. exists ids. eexists. split; [exact Hids|].
      split; [reflexivity|]. split; [exact Hne|].
      intros id Hid. apply List.filter_In in Hid as [Hid Hfree]. split; [exact Hid|].
      apply looseHostFree_true_iff in Hfree as (h & Hfind & _).
      apply List.find_some in Hfind as [Hh Heq].
      apply List.filter_In in Hh as [Hh Hl].
      exists (UserAvailability.user h). split; [apply Hua; exact Hh|].
      unfold isFixedHost in Hl. apply negb_true_iff in Hl.
      split; [exact Hl|]. unfold hostId in Heq. lia.
Qed.

Lemma narrowing_never_adds_user_witness :
  let env := Scenario.env [(1, Scenario.free);
                           (2, Scenario.busyBetween (Scenario.clock 10 0)
                                 (Scenario.clock 10 30) None);
                           (3, Scenario.free)] in
  let endTime := Scenario.jan1 + Dayjs.MILLISECONDS_A_DAY in
  exists slot,
    In slot (timeSlotsOf env (Scenario.wholeDay 2) Scenario.team Scenario.jan1 endTime) /\
    Slot.time slot = Scenario.clock 10 0 /\
    Slot.userIds slot = Some [1; 2; 3].
Proof.
  cbv zeta.
  destruct (narrowing_never_adds_user
              (Scenario.env [(1, Scenario.free);
                             (2, Scenario.busyBetween (Scenario.clock 10 0)
                                   (Scenario.clock 10 30) None);
                             (3, Scenario.free)])
              (Scenario.wholeDay 2)
              (Scenario.prisma Scenario.events Scenario.people) [0; 1; 2]%nat
              (computedAvailableSlots
                 (Scenario.env [(1, Scenario.free);
                                (2, Scenario.busyBetween (Scenario.clock 10 0)
                                      (Scenario.clock 10 30) None);
                                (3, Scenario.free)])
                 (Scenario.wholeDay 2) Scenario.team Scenario.jan1
                 (Scenario.jan1 + Dayjs.MILLISECONDS_A_DAY) [0; 1; 2]%nat)
              Scenario.team Scenario.jan1 (Scenario.jan1 + Dayjs.MILLISECONDS_A_DAY)
              "2024-01-01"
              (Scenario.descriptor 10 0 [3] ["alice"; "bob"; "carol"])
              eq_refl eq_refl eq_refl eq_refl)
    as (slot & Hin & Htime & _ & _).
  - show_emits.
  - exists slot. split; [exact Hin|]. split; [symmetry; exact Htime|].
    vm_compute in Hin, Htime.
    repeat (destruct Hin as [<- | Hin]; [first [reflexivity | discriminate Htime] |]).
    destruct Hin.
Defined.

Lemma filter_all {A} (f : A -> bool) (l : list A) :
  (forall x, In x l -> f x = true) -> List.filter f l = l.
Proof.
  induction l as [|a l IH]; intros Hall; [reflexivity|].
  cbn. rewrite (Hall a (or_introl eq_refl)). f_equal.
  apply IH. intros x Hx. apply Hall. right. exact Hx.
Qed.

Lemma filter_none {A} (f : A -> bool) (l : list A) :
  (forall x, In x l -> f x = false) -> List.filter f l = [].
Proof.
  induction l as [|a l IH]; intros Hall; [reflexivity|].
  cbn. rewrite (Hall a (or_introl eq_refl)).
  apply IH. intros x Hx. apply Hall. right. exact Hx.
Qed.

(** X11: when every host is a fixed host with no busy interval (in
    particular when the event has no host at all), the two availability
    stages remove nothing and change nothing. *)
Theorem idle_fixed_hosts_keep_all_slots userAvailability props timeSlots :
  (forall h, In h userAvailability ->
     isFixedHost h = true /\ UserAvailability.busy h = []) ->
  narrowLooseHosts userAvailability props
    (filterFixedHosts userAvailability props timeSlots) = timeSlots.
Proof.
  intros Hidle.
  rewrite narrowLooseHosts_none.
  - unfold filterFixedHosts. apply filter_all. intros slot _.
    apply List.forallb_forall. intros h Hh.
    apply List.filter_In in Hh as [Hh _]. destruct (Hidle h Hh) as [_ Hbusy].
    unfold hostAvailable. rewrite Hbusy. unfold checkIfIsAvailable.
    destruct (someSeatAt _ _); reflexivity.
  - apply filter_none. intros h Hh. destruct (Hidle h Hh) as [Hfixed _].
    rewrite Hfixed. reflexivity.
Qed.

Lemma idle_fixed_hosts_keep_all_slots_witness :
  let idle :=
    UserAvailability.mk "UTC" [Scenario.nineToFive] [] [] (Host.mk true Scenario.alice) in
  let props := AvailabilityCheckProps.mk 30 None in
  let slots := [Slot.mk (Scenario.clock 9 0) (Some [1]); Slot.mk (Scenario.clock 9 30) None] in
  narrowLooseHosts [idle] props (filterFixedHosts [idle] props slots) = slots /\
  narrowLooseHosts [] props (filterFixedHosts [] props slots) = slots.
Proof.
  cbv zeta. split.
  - apply idle_fixed_hosts_keep_all_slots.
    intros h [<- | []]. split; reflexivity.
  - apply idle_fixed_hosts_keep_all_slots. intros h [].
Defined.

(** X12: when no lookup of a host answers with seats, no descriptor of
    the answer carries [attendees] or [bookingUid]. *)
Theorem no_seats_no_annotation
    env input ctx completion r eventType startTime endTime key d :
  getSchedule env input ctx completion = Ok r ->
  getRegularOrDynamicEventType env ctx input = Ok (Some eventType) ->
  Input.startTime input = Some startTime ->
  Input.endTime input = Some endTime ->
  (forall host, In host (scheduleUsers eventType) ->
     AvailabilityResult.currentSeats
       (lookupAvailability env input eventType startTime endTime host) = None) ->
  emits r key d ->
  SlotDescriptor.attendees d = None /\ SlotDescriptor.bookingUid d = None.
Proof.
  intros Hr Het Hs He Hnone Hd.
  rewrite (getSchedule_answer _ _ _ _ _ _ _ _ Hr Het Hs He) in Hd.
  apply emits_iff in Hd as (slot & _ & _ & ->).
  assert (currentSeatsOf env input eventType startTime endTime completion = None) as ->.
  { unfold currentSeatsOf. apply settleCurrentSeats_none. intros j _.
    unfold seatsAnswered.
    destruct (nth_error _ j) as [a|] eqn:E; [|reflexivity].
    apply List.nth_error_In in E. apply List.in_map_iff in E as (host & <- & Hhost).
    apply Hnone. exact Hhost. }
  split; reflexivity.
Qed.

Lemma no_seats_no_annotation_witness :
  let d := Scenario.descriptor 9 0 [1] [] in
  SlotDescriptor.attendees d = None /\ SlotDescriptor.bookingUid d = None.
Proof.
  cbv zeta.
  apply (no_seats_no_annotation
           (Scenario.env [(1, Scenario.free)]) (Scenario.wholeDay 1)
           (Scenario.prisma Scenario.events Scenario.people) [0%nat]
           (computedAvailableSlots (Scenario.env [(1, Scenario.free)])
              (Scenario.wholeDay 1) Scenario.personal Scenario.jan1
              (Scenario.jan1 + Dayjs.MILLISECONDS_A_DAY) [0%nat])
           Scenario.personal Scenario.jan1 (Scenario.jan1 + Dayjs.MILLISECONDS_A_DAY)
           "2024-01-01").
  - reflexivity.
  - reflexivity.
  - reflexivity.
  - reflexivity.
  - intros host [<- | []]. reflexivity.
  - show_emits.
Defined.

(** X13: the schema accepts a request exactly when it is not dynamic or
    carries a list of user names: a dynamic request that passed the schema
    always has the list its user query needs, and an event type id of 0
    counts as none. *)
Theorem schema_refine_guards_dynamic input :
  (getScheduleSchema_refine input = true <->
   isDynamicBooking input = false \/
   exists names, Input.usernameList input = Some names) /\
  (Input.eventTypeId input = Some 0 -> isDynamicBooking input = true).
Proof.
  unfold getScheduleSchema_refine, isDynamicBooking. split.
  - destruct (truthy (Input.eventTypeId input)); cbn.
    + split; auto.
    + destruct (Input.usernameList input) as [names|].
      * split; eauto.
      * split; [discriminate | intros [[=] | (names & [=])]].
  - intros ->. reflexivity.
Qed.

(** ** The booking handler *)

Lemma differs_false_iff value secret :
  Api.differs value secret = false <->
  (value = Api.Absent /\ secret = None) \/
  exists text, value = Api.Single text /\ secret = Some text.
Proof.
  unfold Api.differs. destruct value as [|s|l], secret as [k|]; split; intros H;
    try discriminate H; auto;
    try (destruct H as [[[=] [=]] | (text & [=] & [=])]; fail).
  - apply negb_false_iff, String.eqb_eq in H. subst. right. eauto.
  - destruct H as [[[=] _] | (text & [= ->] & [= ->])]. now rewrite String.eqb_refl.
Qed.

(** X14: the booking handler answers 401, without a lookup or a post,
    exactly when the key of the request is neither one string equal to
    the configured MIGRUN_INTEGRATION_KEY nor absent while that variable
    is not set; a 401 answer never follows a call.  So with the variable
    unset, requests without a key pass. *)
Theorem booking_key_gate env query :
  let run := BookingApi.handler env query in
  let value := BookingApi.key query in
  let secret := BookingApi.MIGRUN_INTEGRATION_KEY env in
  (run = ([], Api.Responded 401 (BookingApi.Message "Unauthorized")) <->
   ~ ((value = Api.Absent /\ secret = None) \/
      exists text, value = Api.Single text /\ secret = Some text)) /\
  (forall body, snd run = Api.Responded 401 body -> fst run = []).
Proof.
  cbv zeta. rewrite <- differs_false_iff. unfold BookingApi.handler.
  destruct (Api.differs _ _).
  - split; [split; [discriminate | reflexivity] | reflexivity].
  - split.
    + split; [| congruence].
      destruct (BookingApi.getEventType env _) as [effects [[eventType|]|message]];
        try discriminate.
      destruct (BookingApi.post env _ _); discriminate.
    + intros body.
      destruct (BookingApi.getEventType env _) as [effects [[eventType|]|message]];
        try discriminate.
      destruct (BookingApi.post env _ _); discriminate.
Qed.

Lemma getEventType_cases env id effects attempt :
  BookingApi.getEventType env id = (effects, attempt) ->
  (effects = [] /\ exists message, attempt = BookingApi.Throws message) \/
  exists text, BookingApi.asStringOrThrow env id = Some text /\
    let n := BookingApi.parseInt env (Api.Single text) in
    effects = [BookingApi.FindUnique n] /\
    match attempt with
    | BookingApi.Returns None => BookingApi.eventType_findUnique env n = BookingApi.NoRow
    | BookingApi.Returns (Some eventType) =>
        exists row, BookingApi.eventType_findUnique env n = BookingApi.Row row /\
          BookingApi.et_slug eventType = BookingApi.slug row /\
          BookingApi.et_users eventType = [] /\
          BookingApi.et_schedulingType eventType = None
    | BookingApi.Throws _ => True
    end.
Proof.
  unfold BookingApi.getEventType.
  destruct (BookingApi.asStringOrThrow env id) as [text|].
  - intros H. right. exists text. split; [reflexivity|]. cbv zeta.
    destruct (BookingApi.eventType_findUnique env _) as [row| |] eqn:Hrow.
    + destruct (BookingApi.EventTypeMetaDataSchema_parse env _).
      * destruct (BookingApi.customInputSchema_array_parse env _);
          injection H as <- <-; (split; [reflexivity | cbn; eauto 10]).
      * injection H as <- <-. auto.
    + injection H as <- <-. auto.
    + injection H as <- <-. auto.
  - intros [= <- <-]. left. eauto.
Qed.

(** X15: every post of the booking handler follows one lookup of the
    event type that found a row.  The run is then that lookup and that
    post and nothing else; the key matched; the post goes to
    NEXT_PUBLIC_WEBAPP_URL/api/book/event with the slug of the row found
    and the parsed event type id; and the answer is 200 with the booking
    when the post is fulfilled, 500 with the error when it is rejected. *)
Theorem booking_posted_after_lookup env query url data :
  In (BookingApi.Post url data) (fst (BookingApi.handler env query)) ->
  exists text row,
    BookingApi.asStringOrThrow env (BookingApi.eventTypeId query) = Some text /\
    let n := BookingApi.parseInt env (Api.Single text) in
    BookingApi.eventType_findUnique env n = BookingApi.Row row /\
    fst (BookingApi.handler env query) =
      [BookingApi.FindUnique n; BookingApi.Post url data] /\
    Api.differs (BookingApi.key query) (BookingApi.MIGRUN_INTEGRATION_KEY env) = false /\
    url = BookingApi.bookingUrl env /\
    BookingApi.b_eventTypeSlug data = BookingApi.slug row /\
    BookingApi.b_eventTypeId data = BookingApi.parseInt env (BookingApi.eventTypeId query) /\
    snd (BookingApi.handler env query) =
      match BookingApi.post env url data with
      | inl booking => Api.Responded 200 (BookingApi.Booking booking)
      | inr error => Api.Responded 500 (BookingApi.Error error)
      end.
Proof.
  unfold BookingApi.handler.
  destruct (Api.differs _ _); [intros []|].
  destruct (BookingApi.getEventType env _) as [effects attempt] eqn:Hget.
  apply getEventType_cases in Hget.
  destruct Hget as [(-> & message & ->) | (text & Htext & Hrest)].
  - intros [].
  - cbv zeta in Hrest. destruct Hrest as (-> & Hrest).
    destruct attempt as [[eventType|]|message].
    + destruct Hrest as (row & Hrow & Hslug & _).
      assert (forall outcome,
        In (BookingApi.Post url data)
           (fst ([BookingApi.FindUnique (BookingApi.parseInt env (Api.Single text))] ++
                 [BookingApi.Post (BookingApi.bookingUrl env)
                    (BookingApi.bookingData env query eventType)], outcome : Api.Outcome BookingApi.Body)) ->
        url = BookingApi.bookingUrl env /\ data = BookingApi.bookingData env query eventType) as Hin.
      { intros outcome [[=] | [[= <- <-] | []]]. auto. }
      destruct (BookingApi.post env (BookingApi.bookingUrl env) _) eqn:Hpost;
        intros H; apply Hin in H; destruct H as (-> & ->);
        exists text, row; cbv zeta; rewrite Hpost; repeat split; auto.
    + intros [[=] | []].
    + intros [[=] | []].
Qed.

Lemma booking_posted_after_lookup_witness :
  exists text row,
    BookingApi.asStringOrThrow (BookingScenario.env true)
      (BookingApi.eventTypeId (BookingScenario.query "5")) = Some text /\
    BookingApi.eventType_findUnique (BookingScenario.env true) (Some 5) = BookingApi.Row row /\
    snd (BookingApi.handler (BookingScenario.env true) (BookingScenario.query "5")) =
      Api.Responded 200 (BookingApi.Booking "booked").
Proof.
  destruct (booking_posted_after_lookup (BookingScenario.env true) (BookingScenario.query "5")
              (BookingApi.bookingUrl (BookingScenario.env true))
              (BookingApi.bookingData (BookingScenario.env true) (BookingScenario.query "5")
                 (BookingApi.mkEventType "intro-call" "{}" None [] None None None [] [])))
    as (text & row & Htext & Hrow & _ & _ & _ & _ & _ & Hout).
  - vm_compute. right. left. reflexivity.
  - exists text, row. injection Htext as <-.
    split; [reflexivity | split; [exact Hrow | exact Hout]].
Defined.

(** X16: the booking handler posts at most once, and it has posted
    exactly when it answers 200 with a booking or 500 with an error; a
    404 answer means one lookup that found no row, and no post. *)
Theorem booking_answer_tells_post env query :
  let run := BookingApi.handler env query in
  ((exists url data, In (BookingApi.Post url data) (fst run)) <->
   (exists booking, snd run = Api.Responded 200 (BookingApi.Booking booking)) \/
   (exists error, snd run = Api.Responded 500 (BookingApi.Error error))) /\
  (List.length (List.filter BookingApi.isPost (fst run)) <= 1)%nat /\
  (forall body, snd run = Api.Responded 404 body ->
   exists text,
     BookingApi.asStringOrThrow env (BookingApi.eventTypeId query) = Some text /\
     BookingApi.eventType_findUnique env (BookingApi.parseInt env (Api.Single text)) =
       BookingApi.NoRow /\
     fst run = [BookingApi.FindUnique (BookingApi.parseInt env (Api.Single text))]).
Proof.
  cbv zeta. unfold BookingApi.handler.
  destruct (Api.differs _ _).
  { cbn. split; [| split; [lia | discriminate]].
    split; [intros (url & data & []) | intros [(b & [=]) | (e & [=])]]. }
  destruct (BookingApi.getEventType env _) as [effects attempt] eqn:Hget.
  apply getEventType_cases in Hget.
  destruct Hget as [(-> & message & ->) | (text & Htext & Hrest)].
  { cbn. split; [| split; [lia | discriminate]].
    split; [intros (url & data & []) | intros [(b & [=]) | (e & [=])]]. }
  cbv zeta in Hrest. destruct Hrest as (-> & Hrest).
  destruct attempt as [[eventType|]|message].
  - destruct (BookingApi.post env _ _) as [booking|error]; cbn;
      (split; [| split; [lia | discriminate]]); (split; [| eauto 6]); intros _; eauto.
  - cbn. split; [| split; [lia |]].
    + split; [intros (url & data & [[=] | []]) | intros [(b & [=]) | (e & [=])]].
    + intros body _. eauto.
  - cbn. split; [| split; [lia | discriminate]].
    split; [intros (url & data & [[=] | []]) | intros [(b & [=]) | (e & [=])]].
Qed.

(** ** The cancellation handler *)

Lemma cancel_handler_cases env method query :
  let run := CancelApi.handler env method query in
  (CancelApi.detached run = [] /\
   forallb (fun e => negb (CancelApi.changes e)) (CancelApi.issued run) = true /\
   (forall body, CancelApi.outcome run <> Api.Responded 200 body) /\
   CancelApi.outcome run <> Api.Threw None "Promise.all" /\
   (CancelApi.issued run <> [] ->
    method = Some "DELETE" /\
    Api.differs (CancelApi.key query) (CancelApi.MIGRUN_INTEGRATION_KEY env) = false /\
    exists params,
      CancelApi.schemaBookingCancelParams_parse env query
        (CancelApi.parseInt env (CancelApi.id query)) = Some params)) \/
  exists params booking user organizer userId,
    method = Some "DELETE" /\
    Api.differs (CancelApi.key query) (CancelApi.MIGRUN_INTEGRATION_KEY env) = false /\
    CancelApi.schemaBookingCancelParams_parse env query
      (CancelApi.parseInt env (CancelApi.id query)) = Some params /\
    CancelApi.booking_findUnique env (CancelApi.p_id params) (CancelApi.p_uid params) =
      Some booking /\
    CancelApi.b_user booking = Some user /\
    CancelApi.clock env 0 <= CancelApi.b_startTime booking /\
    CancelApi.b_userId booking = Some userId /\
    userId <> 0 /\
    CancelApi.user_findFirst env userId = Some organizer /\
    run = CancelApi.cancelFound env params booking user organizer
            [CancelApi.FindBooking (CancelApi.p_id params) (CancelApi.p_uid params);
             CancelApi.FindOrganizer userId].
Proof.
  cbv zeta. unfold CancelApi.handler.
  assert (forall run : CancelApi.Run,
            CancelApi.detached run = [] -> CancelApi.issued run = [] ->
            (forall body, CancelApi.outcome run <> Api.Responded 200 body) ->
            CancelApi.outcome run <> Api.Threw None "Promise.all" ->
            CancelApi.detached run = [] /\
            forallb (fun e => negb (CancelApi.changes e)) (CancelApi.issued run) = true /\
            (forall body, CancelApi.outcome run <> Api.Responded 200 body) /\
            CancelApi.outcome run <> Api.Threw None "Promise.all" /\
            (CancelApi.issued run <> [] ->
             method = Some "DELETE" /\
             Api.differs (CancelApi.key query) (CancelApi.MIGRUN_INTEGRATION_KEY env) = false /\
             exists params,
               CancelApi.schemaBookingCancelParams_parse env query
                 (CancelApi.parseInt env (CancelApi.id query)) = Some params)) as Hquiet.
  { intros run Hd Hi H200 Hall. rewrite Hi. repeat split; auto; congruence. }
  destruct method as [verb|]; [| left; apply Hquiet; cbn; congruence].
  destruct (String.eqb_spec verb "DELETE") as [-> | Hverb];
    [| left; apply Hquiet; cbn; congruence].
  unfold CancelApi.cancelMigrunBooking.
  destruct (Api.differs _ _) eqn:Hkey; [left; apply Hquiet; cbn; congruence|].
  destruct (CancelApi.schemaBookingCancelParams_parse env query _) as [params|] eqn:Hparse;
    [| left; apply Hquiet; cbn; congruence].
  assert (forall run : CancelApi.Run,
            CancelApi.detached run = [] ->
            forallb (fun e => negb (CancelApi.changes e)) (CancelApi.issued run) = true ->
            (forall body, CancelApi.outcome run <> Api.Responded 200 body) ->
            CancelApi.outcome run <> Api.Threw None "Promise.all" ->
            CancelApi.detached run = [] /\
            forallb (fun e => negb (CancelApi.changes e)) (CancelApi.issued run) = true /\
            (forall body, CancelApi.outcome run <> Api.Responded 200 body) /\
            CancelApi.outcome run <> Api.Threw None "Promise.all" /\
            (CancelApi.issued run <> [] ->
             Some "DELETE" = Some "DELETE" /\
             false = false /\
             exists params0, Some params = Some params0)) as Hlooked.
  { intros run Hd Hi H200 Hall. repeat split; eauto. }
  destruct (CancelApi.booking_findUnique env _ _) as [booking|] eqn:Hfind;
    [| left; apply Hlooked; cbn; congruence].
  destruct (CancelApi.b_user booking) as [user|] eqn:Huser;
    [| left; apply Hlooked; cbn; congruence].
  destruct (Z.ltb_spec (CancelApi.b_startTime booking) (CancelApi.clock env 0)) as [Hpast|Hfuture];
    [left; apply Hlooked; cbn; congruence|].
  destruct (truthy (CancelApi.b_userId booking)) eqn:Hid; cbn [negb];
    [| left; apply Hlooked; cbn; congruence].
  destruct (CancelApi.b_userId booking) as [userId|] eqn:HuserId; [| discriminate Hid].
  cbn in Hid. apply negb_true_iff, Z.eqb_neq in Hid. cbn [default from_option id].
  destruct (CancelApi.user_findFirst env userId) as [organizer|] eqn:Horganizer;
    [| left; apply Hlooked; cbn; congruence].
  right. exists params, booking, user, organizer, userId. repeat split; auto.
Qed.

Lemma deleteEvent_In env credential uid evt externalCalendarId e :
  In e (CancelApi.deleteEvent env credential uid evt externalCalendarId) ->
  e = CancelApi.DeleteEvent credential uid evt externalCalendarId.
Proof.
  unfold CancelApi.deleteEvent. destruct (CancelApi.hasCalendar env credential).
  - intros [<- | []]. reflexivity.
  - intros [].
Qed.

Lemma untilRejected_In env calls e :
  In e (CancelApi.untilRejected env calls) -> In e calls.
Proof.
  induction calls as [|call rest IH]; cbn; [auto|].
  destruct (CancelApi.settles env call).
  - intros [<- | H]; auto.
  - intros [<- | []]; auto.
Qed.

Lemma seriesChain_In env evt updatedBookings credential e :
  In e (CancelApi.seriesChain env evt updatedBookings credential) ->
  exists uid externalCalendarId,
    e = CancelApi.DeleteEvent credential uid evt externalCalendarId.
Proof.
  unfold CancelApi.seriesChain. intros H. apply untilRejected_In in H.
  apply in_flat_map in H. destruct H as (updBooking & _ & H).
  destruct (CancelApi.calendarReference _) as [bookingRef|]; [| destruct H].
  apply deleteEvent_In in H. eauto.
Qed.

Lemma credentialWithId_In credentials credentialId credential :
  CancelApi.credentialWithId credentials credentialId = Some credential ->
  In credential credentials /\ CancelApi.c_id credential = credentialId.
Proof.
  unfold CancelApi.credentialWithId. intros H. apply List.find_some in H.
  destruct H as (Hin & Heq). apply Z.eqb_eq in Heq. auto.
Qed.

(** The calendar deletions: awaited ones and chains are calls of
    [deleteEvent] with a credential of the list. *)
Lemma calendarDeletes_In env booking params credentials evt updatedBookings e :
  let result :=
    CancelApi.calendarDeletes env booking params credentials evt updatedBookings in
  In e (fst result) \/ (exists chain, In chain (snd result) /\ In e chain) ->
  exists credential uid externalCalendarId,
    e = CancelApi.DeleteEvent credential uid evt externalCalendarId /\
    In credential credentials.
Proof.
  cbv zeta. unfold CancelApi.calendarDeletes.
  destruct (CancelApi.calendarReference _) as [reference|];
    [| intros [[] | (chain & [] & _)]].
  destruct (truthy (CancelApi.r_credentialId reference)).
  - destruct (CancelApi.credentialWithId credentials _) as [calendarCredential|] eqn:Hcred;
      [| intros [[] | (chain & [] & _)]].
    apply credentialWithId_In in Hcred. destruct Hcred as (Hcred & _).
    destruct (CancelApi.wholeSeries booking params).
    + intros [[] | (chain & Hchain & He)]. cbn in Hchain.
      apply in_map_iff in Hchain. destruct Hchain as (credential & <- & Hc).
      apply seriesChain_In in He. destruct He as (uid & ext & ->).
      apply filter_In in Hc. destruct Hc as (Hc & _). eauto 6.
    + intros [He | (chain & [] & _)]. cbn in He. apply deleteEvent_In in He. eauto 6.
  - intros [He | (chain & [] & _)]. cbn in He. apply in_flat_map in He.
    destruct He as (credential & Hc & He). apply deleteEvent_In in He.
    apply filter_In in Hc. destruct Hc as (Hc & _). eauto 6.
Qed.

Lemma videoDeletes_In booking credentials e :
  In e (CancelApi.videoDeletes booking credentials) ->
  exists credential uid, e = CancelApi.DeleteMeeting credential uid /\ In credential credentials.
Proof.
  unfold CancelApi.videoDeletes.
  assert (In e (map (fun credential => CancelApi.DeleteMeeting credential (CancelApi.b_uid booking))
                  (CancelApi.videoCredentials credentials)) ->
          exists credential uid,
            e = CancelApi.DeleteMeeting credential uid /\ In credential credentials) as Hlegacy.
  { intros H. apply in_map_iff in H. destruct H as (credential & <- & Hc).
    apply filter_In in Hc. destruct Hc as (Hc & _). eauto. }
  cbv zeta. destruct (CancelApi.videoReference _) as [reference|]; [| exact Hlegacy].
  destruct (truthy (CancelApi.r_credentialId reference)); [| exact Hlegacy].
  destruct (CancelApi.credentialWithId credentials _) as [videoCredential|] eqn:Hcred;
    [| intros []].
  apply credentialWithId_In in Hcred. destruct Hcred as (Hcred & _).
  intros [<- | []]. eauto.
Qed.

(** The credentials the deletions choose from: the user's, and the fake
    Daily one for a booking located on Daily. *)
Lemma cancelFound_shape env params booking user organizer before :
  let run := CancelApi.cancelFound env params booking user organizer before in
  let reason := CancelApi.p_cancellationReason params in
  let update := CancelApi.Update (CancelApi.p_id params) (CancelApi.p_uid params) reason in
  let ends :=
    [CancelApi.DeleteAttendees (CancelApi.b_id booking);
     CancelApi.DeleteReferences (CancelApi.b_id booking)] in
  (CancelApi.wholeSeries booking params = None /\
   CancelApi.booking_update env (CancelApi.p_id params) (CancelApi.p_uid params) = None /\
   run = CancelApi.mkRun (before ++ [update]) [] (Api.Threw None "update")) \/
  exists write reads api,
    (match CancelApi.wholeSeries booking params with
     | Some recurringEventId =>
         write = CancelApi.UpdateMany recurringEventId (CancelApi.clock env 1) reason /\
         reads = [CancelApi.FindMany recurringEventId (CancelApi.clock env 2)]
     | None => write = update /\ reads = []
     end) /\
    CancelApi.issued run = before ++ write :: reads ++ api ++ ends /\
    CancelApi.outcome run =
      (if forallb (CancelApi.settles env) (ends ++ api)
       then Api.Responded 200 "Booking deleted"
       else Api.Threw None "Promise.all") /\
    (forall e, In e api \/ (exists chain, In chain (CancelApi.detached run) /\ In e chain) ->
     exists credential,
       CancelApi.credentialOf e = Some credential /\
       (In credential (CancelApi.u_credentials user) \/
        credential = CancelApi.FAKE_DAILY_CREDENTIAL env /\
        CancelApi.b_location booking = Some (CancelApi.DailyLocationType env))) /\
    (forall chain e, In chain (CancelApi.detached run) -> In e chain ->
     CancelApi.isDeleteEvent e = true) /\
    (CancelApi.detached run <> [] ->
     CancelApi.wholeSeries booking params <> None /\
     api = CancelApi.videoDeletes booking
             (if match CancelApi.b_location booking with
                 | Some location => String.eqb location (CancelApi.DailyLocationType env)
                 | None => false
                 end
              then CancelApi.u_credentials user ++ [CancelApi.FAKE_DAILY_CREDENTIAL env]
              else CancelApi.u_credentials user)).
Proof.
  cbv zeta. unfold CancelApi.cancelFound.
  set (credentials :=
         if match CancelApi.b_location booking with
            | Some location => String.eqb location (CancelApi.DailyLocationType env)
            | None => false
            end
         then CancelApi.u_credentials user ++ [CancelApi.FAKE_DAILY_CREDENTIAL env]
         else CancelApi.u_credentials user).
  assert (forall credential, In credential credentials ->
            In credential (CancelApi.u_credentials user) \/
            credential = CancelApi.FAKE_DAILY_CREDENTIAL env /\
            CancelApi.b_location booking = Some (CancelApi.DailyLocationType env)) as Hcreds.
  { subst credentials. intros credential.
    destruct (CancelApi.b_location booking) as [location|]; [| auto].
    destruct (String.eqb_spec location (CancelApi.DailyLocationType env)) as [-> | _]; [| auto].
    intros H. apply in_app_or in H. destruct H as [H | [<- | []]]; auto. }
  assert (forall updated,
    exists api,
      let '(calendar, chains) :=
        CancelApi.calendarDeletes env booking params credentials
          (CancelApi.calendarEvent booking user organizer (CancelApi.p_cancellationReason params))
          updated in
      calendar ++ CancelApi.videoDeletes booking credentials = api /\
      (forall e, In e api \/ (exists chain, In chain chains /\ In e chain) ->
       exists credential,
         CancelApi.credentialOf e = Some credential /\
         (In credential (CancelApi.u_credentials user) \/
          credential = CancelApi.FAKE_DAILY_CREDENTIAL env /\
          CancelApi.b_location booking = Some (CancelApi.DailyLocationType env))) /\
      (forall chain e, In chain chains -> In e chain -> CancelApi.isDeleteEvent e = true) /\
      (chains <> [] ->
       CancelApi.wholeSeries booking params <> None /\
       api = CancelApi.videoDeletes booking credentials)) as Hapi.
  { intros updated.
    pose proof (fun e => calendarDeletes_In env booking params credentials
                  (CancelApi.calendarEvent booking user organizer
                     (CancelApi.p_cancellationReason params)) updated e) as Hcal.
    cbv zeta in Hcal.
    assert (snd (CancelApi.calendarDeletes env booking params credentials
                  (CancelApi.calendarEvent booking user organizer
                     (CancelApi.p_cancellationReason params)) updated) <> [] ->
            CancelApi.wholeSeries booking params <> None /\
            fst (CancelApi.calendarDeletes env booking params credentials
                  (CancelApi.calendarEvent booking user organizer
                     (CancelApi.p_cancellationReason params)) updated) = []) as Hseries.
    { unfold CancelApi.calendarDeletes.
      destruct (CancelApi.calendarReference _); [| cbn; congruence].
      destruct (truthy _); [| cbn; congruence].
      destruct (CancelApi.credentialWithId _ _); [| cbn; congruence].
      destruct (CancelApi.wholeSeries booking params); cbn; [split|]; congruence. }
    destruct (CancelApi.calendarDeletes _ _ _ _ _ _) as [calendar chains].
    cbn [fst snd] in *. eexists. split; [reflexivity|]. split; [| split].
    - intros e [He | He].
      + apply in_app_or in He. destruct He as [He | He].
        * destruct (Hcal e (or_introl He)) as (c & uid & ext & -> & Hc). cbn. eauto.
        * apply videoDeletes_In in He. destruct He as (c & uid & -> & Hc). cbn. eauto.
      + destruct (Hcal e (or_intror He)) as (c & uid & ext & -> & Hc). cbn. eauto.
    - intros chain e Hchain He.
      destruct (Hcal e (or_intror (ex_intro _ chain (conj Hchain He))))
        as (c & uid & ext & -> & _). reflexivity.
    - intros Hchains. destruct (Hseries Hchains) as (Hw & ->). auto. }
  destruct (CancelApi.wholeSeries booking params) as [recurringEventId|] eqn:Hseries.
  - right.
    destruct (Hapi (CancelApi.booking_findMany env recurringEventId (CancelApi.clock env 2)))
      as (api & Hrest).
    destruct (CancelApi.calendarDeletes _ _ _ _ _ _) as [calendar chains].
    destruct Hrest as (<- & Hcred & Hchains & Hdet).
    eexists _, _, _. split; [split; reflexivity|]. cbn [CancelApi.issued CancelApi.outcome CancelApi.detached].
    repeat split; auto; try apply Hdet; auto.
  - destruct (CancelApi.booking_update env _ _) as [updatedBooking|].
    + right. destruct (Hapi [updatedBooking]) as (api & Hrest).
      destruct (CancelApi.calendarDeletes _ _ _ _ _ _) as [calendar chains].
      destruct Hrest as (<- & Hcred & Hchains & Hdet).
      eexists _, _, _. split; [split; reflexivity|]. cbn [CancelApi.issued CancelApi.outcome CancelApi.detached].
      repeat split; auto; try apply Hdet; auto.
    + left. auto.
Qed.

(** X17: the cancellation handler makes no call at all unless the
    method is DELETE, the key matches and the parameters parse; and no
    call that changes anything, awaited or not, unless the booking was
    found with its user, does not start before the time of the request,
    has a non-zero user id and its organizer was found.  A booking that
    has started is never cancelled. *)
Theorem cancel_guards env method query e :
  In e (CancelApi.calls (CancelApi.handler env method query)) ->
  method = Some "DELETE" /\
  Api.differs (CancelApi.key query) (CancelApi.MIGRUN_INTEGRATION_KEY env) = false /\
  exists params,
    CancelApi.schemaBookingCancelParams_parse env query
      (CancelApi.parseInt env (CancelApi.id query)) = Some params /\
    (CancelApi.changes e = true ->
     exists booking user userId organizer,
       CancelApi.booking_findUnique env (CancelApi.p_id params) (CancelApi.p_uid params) =
         Some booking /\
       CancelApi.b_user booking = Some user /\
       CancelApi.clock env 0 <= CancelApi.b_startTime booking /\
       CancelApi.b_userId booking = Some userId /\
       userId <> 0 /\
       CancelApi.user_findFirst env userId = Some organizer).
Proof.
  unfold CancelApi.calls. intros He.
  destruct (cancel_handler_cases env method query)
    as [(Hd & Hreads & _ & _ & Hany) |
        (params & booking & user & organizer & userId & Hm & Hkey & Hparse & Hfind & Huser &
         Hclock & Hid & Hnz & Horg & _)].
  - rewrite Hd, app_nil_r in He.
    destruct Hany as (Hm & Hkey & params & Hparse).
    { intros Hnil. rewrite Hnil in He. destruct He. }
    repeat split; auto. exists params. split; [exact Hparse|].
    intros Hch. rewrite forallb_forall in Hreads. apply Hreads in He.
    rewrite Hch in He. discriminate He.
  - repeat split; auto. exists params. split; [exact Hparse|].
    intros _. exists booking, user, userId, organizer. auto 10.
Qed.

Lemma cancel_guards_witness :
  let env := CancelScenario.env (fun _ => false) in
  exists params booking,
    CancelApi.booking_findUnique env (CancelApi.p_id params) (CancelApi.p_uid params) =
      Some booking /\
    CancelApi.clock env 0 <= CancelApi.b_startTime booking.
Proof.
  cbv zeta.
  destruct (cancel_guards (CancelScenario.env (fun _ => false)) (Some "DELETE")
              (CancelScenario.query "false") (CancelApi.DeleteAttendees 42))
    as (_ & _ & params & _ & Hrest).
  - vm_compute. do 5 right. left. reflexivity.
  - destruct (Hrest eq_refl) as (booking & user & userId & organizer & Hfind & _ & Hclock & _).
    exists params, booking. split; assumption.
Defined.

Lemma marked_before l1 e l2 pre w rest :
  pre ++ w :: rest = l1 ++ e :: l2 ->
  forallb (fun x => negb (CancelApi.isDeletion x)) pre = true ->
  CancelApi.isStatusWrite w = true ->
  CancelApi.isDeletion e = true ->
  existsb CancelApi.isStatusWrite l1 = true.
Proof.
  intros Heq Hpre Hw He. revert l1 Heq Hpre.
  induction pre as [|p pre IH]; intros [|x l1] Heq Hpre; cbn in *.
  - injection Heq as -> _. destruct e; discriminate.
  - injection Heq as <- _. rewrite Hw. reflexivity.
  - injection Heq as -> _. rewrite He in Hpre. discriminate.
  - injection Heq as <- Heq. apply andb_true_iff in Hpre. destruct Hpre as (_ & Hpre).
    rewrite (IH l1 Heq Hpre). apply orb_true_r.
Qed.

(** X18: cancelling comes first.  Before any deletion the handler issues
    (calendar event, video meeting, attendees, references) it has issued
    the write that marks the booking or the series cancelled; and a run
    that left a chain of deletions behind has issued that write. *)
Theorem cancelled_before_deleting env method query e :
  let run := CancelApi.handler env method query in
  CancelApi.isDeletion e = true ->
  (forall l1 l2, CancelApi.issued run = l1 ++ e :: l2 ->
   existsb CancelApi.isStatusWrite l1 = true) /\
  (forall chain, In chain (CancelApi.detached run) -> In e chain ->
   existsb CancelApi.isStatusWrite (CancelApi.issued run) = true).
Proof.
  cbv zeta. intros He.
  destruct (cancel_handler_cases env method query)
    as [(Hd & Hreads & _) |
        (params & booking & user & organizer & userId & _ & _ & _ & _ & _ & _ & _ & _ & _ & ->)].
  - split.
    + intros l1 l2 Heq. rewrite Heq, forallb_app in Hreads.
      apply andb_true_iff in Hreads. destruct Hreads as (_ & Hreads).
      destruct e; cbn in *; congruence.
    + rewrite Hd. intros chain [].
  - destruct (cancelFound_shape env params booking user organizer
                [CancelApi.FindBooking (CancelApi.p_id params) (CancelApi.p_uid params);
                 CancelApi.FindOrganizer userId])
      as [(_ & _ & ->) | (write & reads & api & Hwrite & -> & _ & _ & _ & _)].
    + split; [| intros chain []]. cbn. intros l1 l2 Heq.
      eapply (marked_before l1 e l2
                [CancelApi.FindBooking _ _; CancelApi.FindOrganizer _]
                (CancelApi.Update _ _ _) []); [exact Heq | reflexivity | reflexivity | exact He].
    + assert (CancelApi.isStatusWrite write = true) as Hw.
      { destruct (CancelApi.wholeSeries booking params); destruct Hwrite as (-> & _); reflexivity. }
      split.
      * intros l1 l2 Heq.
        eapply (marked_before l1 e l2
                  [CancelApi.FindBooking _ _; CancelApi.FindOrganizer _] write);
          [exact Heq | reflexivity | exact Hw | exact He].
      * intros _ _ _. cbn. rewrite Hw. reflexivity.
Qed.

Lemma cancelled_before_deleting_witness :
  existsb CancelApi.isStatusWrite
    (firstn 5 (CancelApi.issued
                 (CancelApi.handler (CancelScenario.env (fun _ => false)) (Some "DELETE")
                    (CancelScenario.query "false")))) = true.
Proof.
  destruct (cancelled_before_deleting (CancelScenario.env (fun _ => false)) (Some "DELETE")
              (CancelScenario.query "false") (CancelApi.DeleteAttendees 42) eq_refl)
    as (Hissued & _).
  apply (Hissued _ [CancelApi.DeleteReferences 42]). vm_compute. reflexivity.
Defined.

Lemma filter_none_of {A} (f : A -> bool) (l : list A) :
  (forall x, In x l -> f x = false) -> List.filter f l = [].
Proof.
  induction l as [|a l IH]; cbn; [reflexivity|]. intros H.
  rewrite (H a (or_introl eq_refl)). apply IH. auto.
Qed.

(** X19: a 200 answer of the cancellation handler says "Booking
    deleted", and then exactly one write marking the booking or the series
    cancelled was issued, the deletions of the attendees and of the
    references of the booking found were issued, and every deletion the
    handler issued itself was fulfilled. *)
Theorem cancel_answers_200 env method query body :
  let run := CancelApi.handler env method query in
  CancelApi.outcome run = Api.Responded 200 body ->
  body = "Booking deleted" /\
  (exists write, List.filter CancelApi.isStatusWrite (CancelApi.issued run) = [write]) /\
  (forall e, In e (CancelApi.issued run) -> CancelApi.isDeletion e = true ->
   CancelApi.settles env e = true) /\
  exists params booking,
    CancelApi.schemaBookingCancelParams_parse env query
      (CancelApi.parseInt env (CancelApi.id query)) = Some params /\
    CancelApi.booking_findUnique env (CancelApi.p_id params) (CancelApi.p_uid params) =
      Some booking /\
    In (CancelApi.DeleteAttendees (CancelApi.b_id booking)) (CancelApi.issued run) /\
    In (CancelApi.DeleteReferences (CancelApi.b_id booking)) (CancelApi.issued run).
Proof.
  cbv zeta. intros Hout.
  destruct (cancel_handler_cases env method query)
    as [(_ & _ & H200 & _) |
        (params & booking & user & organizer & userId & _ & _ & Hparse & Hfind & _ & _ & _ & _ & _ & Hrun)].
  { destruct (H200 body Hout). }
  rewrite Hrun in *. clear Hrun.
  destruct (cancelFound_shape env params booking user organizer
              [CancelApi.FindBooking (CancelApi.p_id params) (CancelApi.p_uid params);
               CancelApi.FindOrganizer userId])
    as [(_ & _ & Hrun) | (write & reads & api & Hwrite & Hissued & Houtcome & Hcred & _ & _)].
  { rewrite Hrun in Hout. discriminate Hout. }
  rewrite Hissued. rewrite Houtcome in Hout.
  destruct (forallb _ _) eqn:Hall in Hout; [| discriminate Hout].
  injection Hout as <-. rewrite forallb_forall in Hall.
  assert (forall e, In e api -> CancelApi.isDeletion e = true /\ CancelApi.isStatusWrite e = false)
    as Hapi.
  { intros e He. destruct (Hcred e (or_introl He)) as (c & Hc & _).
    destruct e; try discriminate Hc; auto. }
  split; [reflexivity|]. split; [| split].
  - exists write. cbn.
    assert (CancelApi.isStatusWrite write = true) as ->.
    { destruct (CancelApi.wholeSeries booking params); destruct Hwrite as (-> & _); reflexivity. }
    f_equal. apply filter_none_of. intros x Hx.
    apply in_app_or in Hx. destruct Hx as [Hx | Hx].
    + destruct (CancelApi.wholeSeries booking params); destruct Hwrite as (_ & ->);
        [destruct Hx as [<- | []]; reflexivity | destruct Hx].
    + apply in_app_or in Hx. destruct Hx as [Hx | [<- | [<- | []]]]; try reflexivity.
      apply Hapi, Hx.
  - intros e He Hdel. cbn in He.
    destruct He as [<- | [<- | [<- | He]]]; try discriminate Hdel.
    { destruct (CancelApi.wholeSeries booking params); destruct Hwrite as (-> & _);
        discriminate Hdel. }
    apply in_app_or in He. destruct He as [He | He].
    { destruct (CancelApi.wholeSeries booking params); destruct Hwrite as (_ & ->);
        [destruct He as [<- | []]; discriminate Hdel | destruct He]. }
    apply Hall. apply in_app_or in He. apply in_or_app. tauto.
  - exists params, booking. split; [exact Hparse|]. split; [exact Hfind|].
    split; cbn; do 3 right; repeat (apply in_or_app; right); cbn; auto.
Qed.

Lemma cancel_answers_200_witness :
  let run :=
    CancelApi.handler (CancelScenario.env (fun _ => false)) (Some "DELETE")
      (CancelScenario.query "true") in
  exists write, List.filter CancelApi.isStatusWrite (CancelApi.issued run) = [write].
Proof.
  cbv zeta.
  destruct (cancel_answers_200 (CancelScenario.env (fun _ => false)) (Some "DELETE")
              (CancelScenario.query "true") "Booking deleted" eq_refl)
    as (_ & Hwrite & _).
  exact Hwrite.
Defined.

Lemma calendarDeletes_withSettles env fate booking params credentials evt updatedBookings :
  fst (CancelApi.calendarDeletes (CancelApi.withSettles env fate) booking params credentials
         evt updatedBookings) =
  fst (CancelApi.calendarDeletes env booking params credentials evt updatedBookings).
Proof.
  unfold CancelApi.calendarDeletes.
  destruct (CancelApi.calendarReference _); [| reflexivity].
  destruct (truthy _); [| reflexivity].
  destruct (CancelApi.credentialWithId _ _); [| reflexivity].
  destruct (CancelApi.wholeSeries _ _); reflexivity.
Qed.

(** The calls the handler issues itself do not depend on how any call
    ends. *)
Lemma handler_withSettles_issued env fate method query :
  CancelApi.issued (CancelApi.handler (CancelApi.withSettles env fate) method query) =
  CancelApi.issued (CancelApi.handler env method query).
Proof.
  unfold CancelApi.handler, CancelApi.cancelMigrunBooking.
  cbn [CancelApi.withSettles CancelApi.MIGRUN_INTEGRATION_KEY CancelApi.parseInt
       CancelApi.schemaBookingCancelParams_parse CancelApi.booking_findUnique
       CancelApi.user_findFirst CancelApi.clock].
  destruct method as [verb|]; [| reflexivity].
  destruct (String.eqb verb "DELETE"); [| reflexivity].
  destruct (Api.differs _ _); [reflexivity|].
  destruct (CancelApi.schemaBookingCancelParams_parse env query _) as [params|]; [| reflexivity].
  destruct (CancelApi.booking_findUnique env _ _) as [booking|]; [| reflexivity].
  destruct (CancelApi.b_user booking) as [user|]; [| reflexivity].
  destruct (_ <? _); [reflexivity|].
  destruct (negb _); [reflexivity|].
  destruct (CancelApi.user_findFirst env _) as [organizer|]; [| reflexivity].
  unfold CancelApi.cancelFound.
  cbn [CancelApi.withSettles CancelApi.booking_findMany CancelApi.booking_update
       CancelApi.clock CancelApi.FAKE_DAILY_CREDENTIAL CancelApi.DailyLocationType].
  match goal with
  | |- context [CancelApi.calendarDeletes (CancelApi.withSettles env fate) ?b ?p ?c ?v _] =>
      pose proof (fun updated => calendarDeletes_withSettles env fate b p c v updated) as Hfst
  end.
  destruct (CancelApi.wholeSeries booking params) as [recurringEventId|].
  - specialize (Hfst (CancelApi.booking_findMany env recurringEventId (CancelApi.clock env 2))).
    destruct (CancelApi.calendarDeletes (CancelApi.withSettles env fate) _ _ _ _ _).
    destruct (CancelApi.calendarDeletes env _ _ _ _ _).
    cbn in Hfst. subst. reflexivity.
  - destruct (CancelApi.booking_update env _ _) as [updatedBooking|]; [| reflexivity].
    specialize (Hfst [updatedBooking]).
    destruct (CancelApi.calendarDeletes (CancelApi.withSettles env fate) _ _ _ _ _).
    destruct (CancelApi.calendarDeletes env _ _ _ _ _).
    cbn in Hfst. subst. reflexivity.
Qed.

Lemma forallb_agree {A} (f g : A -> bool) (l : list A) :
  (forall x, In x l -> f x = g x) -> forallb f l = forallb g l.
Proof.
  induction l as [|a l IH]; cbn; [reflexivity|]. intros H.
  rewrite (H a (or_introl eq_refl)), IH; auto.
Qed.

(** X20: when the handler leaves chains of calls behind (the calendar
    events of a whole recurring series), the chains hold calendar
    deletions only, no calendar deletion is among the calls the handler
    issues and waits for, the series was marked with updateMany, and the
    calls issued and the answer are the same however the calendar
    deletions end: a rejected deletion of a calendar event of the series
    does not reach the answer. *)
Theorem series_calendar_deletions_not_awaited env method query :
  let run := CancelApi.handler env method query in
  CancelApi.detached run <> [] ->
  (forall chain e, In chain (CancelApi.detached run) -> In e chain ->
   CancelApi.isDeleteEvent e = true) /\
  (forall e, In e (CancelApi.issued run) -> CancelApi.isDeleteEvent e = false) /\
  (exists recurringEventId since reason,
     In (CancelApi.UpdateMany recurringEventId since reason) (CancelApi.issued run)) /\
  forall fate,
    (forall e, CancelApi.isDeleteEvent e = false -> fate e = CancelApi.settles env e) ->
    let run' := CancelApi.handler (CancelApi.withSettles env fate) method query in
    CancelApi.issued run' = CancelApi.issued run /\
    CancelApi.outcome run' = CancelApi.outcome run.
Proof.
  cbv zeta. intros Hdet.
  destruct (cancel_handler_cases env method query)
    as [(Hnil & _) |
        (params & booking & user & organizer & userId & Hm & Hkey & Hparse & Hfind & Huser &
         Hclock & Hid & Hnz & Horg & Hrun)].
  { contradiction. }
  destruct (cancelFound_shape env params booking user organizer
              [CancelApi.FindBooking (CancelApi.p_id params) (CancelApi.p_uid params);
               CancelApi.FindOrganizer userId])
    as [(_ & _ & Hthrew) | (write & reads & api & Hwrite & Hissued & Houtcome & _ & Hchains & Hseries)].
  { rewrite Hrun, Hthrew in Hdet. contradiction. }
  rewrite <- Hrun in Hissued, Houtcome, Hchains, Hseries.
  destruct (Hseries Hdet) as (Hwhole & Hapi).
  destruct (CancelApi.wholeSeries booking params) as [recurringEventId|] eqn:Hw;
    [| contradiction].
  destruct Hwrite as (-> & ->).
  assert (forall e, In e api -> CancelApi.isDeleteEvent e = false) as Hvideo.
  { rewrite Hapi. intros e He. apply videoDeletes_In in He.
    destruct He as (c & uid & -> & _). reflexivity. }
  split; [exact Hchains|]. split; [| split].
  - rewrite Hissued. intros e He. cbn in He.
    destruct He as [<- | [<- | [<- | [<- | He]]]]; try reflexivity.
    apply in_app_or in He. destruct He as [He | [<- | [<- | []]]]; auto.
  - rewrite Hissued. do 3 eexists. cbn. do 2 right. left. reflexivity.
  - intros fate Hfate.
    pose proof (handler_withSettles_issued env fate method query) as Hsame.
    split; [exact Hsame|].
    destruct (cancel_handler_cases (CancelApi.withSettles env fate) method query)
      as [(_ & Hreads & _) |
          (params' & booking' & user' & organizer' & userId' & _ & _ & Hparse' & Hfind' & Huser' &
           _ & Hid' & _ & Horg' & Hrun')].
    + exfalso. rewrite Hsame, Hissued in Hreads. discriminate Hreads.
    + cbn in Hparse'. rewrite Hparse in Hparse'. injection Hparse' as <-.
      cbn in Hfind'. rewrite Hfind in Hfind'. injection Hfind' as <-.
      rewrite Huser in Huser'. injection Huser' as <-.
      rewrite Hid in Hid'. injection Hid' as <-.
      cbn in Horg'. rewrite Horg in Horg'. injection Horg' as <-.
      destruct (cancelFound_shape (CancelApi.withSettles env fate) params booking user organizer
                  [CancelApi.FindBooking (CancelApi.p_id params) (CancelApi.p_uid params);
                   CancelApi.FindOrganizer userId])
        as [(Hnone & _) | (write' & reads' & api' & Hwrite' & Hissued' & Houtcome' & _)].
      { rewrite Hw in Hnone. discriminate Hnone. }
      rewrite <- Hrun' in Hissued', Houtcome'.
      rewrite Hw in Hwrite'. destruct Hwrite' as (-> & ->). cbn in Hissued'.
      rewrite Hsame, Hissued in Hissued'. cbn in Hissued'.
      injection Hissued' as Hissued'. apply app_inv_tail in Hissued'. subst api'.
      rewrite Houtcome', Houtcome. cbn [CancelApi.withSettles CancelApi.settles].
      rewrite (forallb_agree fate (CancelApi.settles env)); [reflexivity|].
      intros e He. apply Hfate. apply in_app_or in He.
      destruct He as [[<- | [<- | []]] | He]; auto.
Qed.

Lemma series_calendar_deletions_not_awaited_witness :
  let rejected e := CancelApi.isDeleteEvent e in
  CancelApi.outcome
    (CancelApi.handler (CancelScenario.env rejected) (Some "DELETE")
       (CancelScenario.query "true")) =
  Api.Responded 200 "Booking deleted".
Proof.
  cbv zeta.
  destruct (series_calendar_deletions_not_awaited (CancelScenario.env (fun _ => false))
              (Some "DELETE") (CancelScenario.query "true"))
    as (_ & _ & _ & Hfate).
  - vm_compute. discriminate.
  - destruct (Hfate (fun e => negb (CancelApi.isDeleteEvent e))) as (_ & Hout).
    + intros e He. rewrite He. reflexivity.
    + exact Hout.
Defined.

(** X21: every deletion of a calendar event or of a video meeting,
    awaited or not, is made with a credential of the user of the booking
    found, or with the fake Daily credential, and then the booking is
    located on Daily. *)
Theorem deletions_use_the_users_credentials env method query e credential :
  In e (CancelApi.calls (CancelApi.handler env method query)) ->
  CancelApi.credentialOf e = Some credential ->
  exists params booking user,
    CancelApi.schemaBookingCancelParams_parse env query
      (CancelApi.parseInt env (CancelApi.id query)) = Some params /\
    CancelApi.booking_findUnique env (CancelApi.p_id params) (CancelApi.p_uid params) =
      Some booking /\
    CancelApi.b_user booking = Some user /\
    (In credential (CancelApi.u_credentials user) \/
     credential = CancelApi.FAKE_DAILY_CREDENTIAL env /\
     CancelApi.b_location booking = Some (CancelApi.DailyLocationType env)).
Proof.
  unfold CancelApi.calls. intros He Hc.
  destruct (cancel_handler_cases env method query)
    as [(Hd & Hreads & _) |
        (params & booking & user & organizer & userId & _ & _ & Hparse & Hfind & Huser &
         _ & _ & _ & _ & Hrun)].
  { rewrite Hd, app_nil_r in He. rewrite forallb_forall in Hreads. apply Hreads in He.
    destruct e; discriminate. }
  exists params, booking, user. repeat (split; [assumption|]).
  destruct (cancelFound_shape env params booking user organizer
              [CancelApi.FindBooking (CancelApi.p_id params) (CancelApi.p_uid params);
               CancelApi.FindOrganizer userId])
    as [(_ & _ & Hthrew) | (write & reads & api & Hwrite & Hissued & _ & Hcred & _)].
  { rewrite Hrun, Hthrew in He. cbn in He.
    destruct He as [<- | [<- | [<- | []]]]; discriminate Hc. }
  rewrite <- Hrun in Hissued, Hcred.
  assert (In e api \/
          exists chain, In chain (CancelApi.detached (CancelApi.handler env method query)) /\
                        In e chain) as Hplace.
  { apply in_app_or in He. destruct He as [He | He].
    - rewrite Hissued in He. cbn in He.
      destruct He as [<- | [<- | [<- | He]]]; try discriminate Hc.
      { destruct (CancelApi.wholeSeries booking params); destruct Hwrite as (-> & _);
          discriminate Hc. }
      apply in_app_or in He. destruct He as [He | He].
      { destruct (CancelApi.wholeSeries booking params); destruct Hwrite as (_ & ->);
          [destruct He as [<- | []]; discriminate Hc | destruct He]. }
      apply in_app_or in He. destruct He as [He | [<- | [<- | []]]]; try discriminate Hc.
      auto.
    - right. apply in_concat in He. destruct He as (chain & Hchain & He). eauto. }
  destruct (Hcred e Hplace) as (c & Hc' & Hin). rewrite Hc in Hc'. injection Hc' as <-.
  exact Hin.
Qed.

Lemma deletions_use_the_users_credentials_witness :
  exists user,
    CancelApi.b_user CancelScenario.booking = Some user /\
    In CancelScenario.zoom (CancelApi.u_credentials user).
Proof.
  destruct (deletions_use_the_users_credentials (CancelScenario.env (fun _ => false))
              (Some "DELETE") (CancelScenario.query "false")
              (CancelApi.DeleteMeeting CancelScenario.zoom "meet-1") CancelScenario.zoom)
    as (params & booking & user & Hparse & Hfind & Huser & Hin).
  - vm_compute. do 4 right. left. reflexivity.
  - reflexivity.
  - injection Hparse as <-. injection Hfind as <-. exists user. split; [exact Huser|].
    destruct Hin as [Hin | (Hfake & _)]; [exact Hin | discriminate Hfake].
Defined.
